(** * Catalog synchronisation (upload_products.py): a shallow embedding

    The script reads a spreadsheet of product rows, groups the rows by
    handle and, for each group, either creates the product on the remote
    shop or updates it.  Every remote call goes through
    [run_graphql_query].

    The embedding keeps the structure of the script:
    - text is [string]; a character stands for the code point of the same
      number (code points below 256), which fixes what [strip] removes and
      what [lower] changes;
    - a spreadsheet cell is [cell]: an empty cell (NaN), a text or an
      integer; floating-point cells are not modelled;
    - a row (a pandas Series) is the list of its column names paired with
      its cells, in column order;
    - the [data] dictionary of a response is [payload], one constructor per
      root field; probing for another root field finds nothing, as
      [dict.get] does;
    - the remote side is an arbitrary function from the events so far and
      the request to the transport outcome; a run is a function on the
      list of events (requests sent and sleeps), in the order they happen;
    - a Python exception (KeyError, IndexError) is the [Raise] outcome; it
      leaves every function it crosses and ends the run in [main]. *)

From Stdlib Require Import ZArith Ascii DecimalString.
From stdpp Require Import gmap strings list.

Open Scope string_scope.
Open Scope list_scope.

(** ** Text *)

Module Text.

(** [str.isspace] on the code points below 256. *)
Definition is_space (c : Ascii.ascii) : bool :=
  let n := Ascii.N_of_ascii c in
  ((9 <=? n) && (n <=? 13) || (28 <=? n) && (n <=? 32)
   || (n =? 133) || (n =? 160))%N.

(** [str.lower] on one code point below 256: A-Z and the accented
    capitals 192-222 (but not the multiplication sign 215) move up by 32. *)
Definition lower_char (c : Ascii.ascii) : Ascii.ascii :=
  let n := Ascii.N_of_ascii c in
  if ((65 <=? n) && (n <=? 90)
      || (192 <=? n) && (n <=? 222) && negb (n =? 215))%N
  then Ascii.ascii_of_N (n + 32) else c.

Fixpoint lower (s : string) : string :=
  match s with
  | EmptyString => EmptyString
  | String c s' => String (lower_char c) (lower s')
  end.

Fixpoint lstrip (s : string) : string :=
  match s with
  | EmptyString => EmptyString
  | String c s' => if is_space c then lstrip s' else s
  end.

Fixpoint rstrip (s : string) : string :=
  match s with
  | EmptyString => EmptyString
  | String c s' =>
      match rstrip s' with
      | EmptyString => if is_space c then EmptyString else String c EmptyString
      | t => String c t
      end
  end.

(** [s.strip()] *)
Definition strip (s : string) : string := rstrip (lstrip s).

(** Truth value of a text: the empty text is false. *)
Definition nonempty (s : string) : bool :=
  match s with EmptyString => false | _ => true end.

(** [s[n:]] *)
Fixpoint drop (n : nat) (s : string) : string :=
  match n, s with
  | O, _ => s
  | S n', String _ s' => drop n' s'
  | S _, EmptyString => EmptyString
  end.

(** [s.replace(old, new)] for a non-empty [old]: every occurrence of
    [old], found from the left and not overlapping, becomes [new].
    [skip] counts the characters of an occurrence still to be dropped. *)
Fixpoint replace_from (skip : nat) (old new s : string) : string :=
  match s with
  | EmptyString => EmptyString
  | String c s' =>
      match skip with
      | S k => replace_from k old new s'
      | O =>
          if String.prefix old s
          then new +:+ replace_from (String.length old - 1) old new s'
          else String c (replace_from 0 old new s')
      end
  end.

Definition replace (old new s : string) : string := replace_from 0 old new s.

(** [s.split(sep)] for a one-character separator, all the pieces. *)
Fixpoint split (sep : Ascii.ascii) (s : string) : list string :=
  match s with
  | EmptyString => [EmptyString]
  | String c s' =>
      if Ascii.eqb c sep then EmptyString :: split sep s'
      else match split sep s' with
           | p :: ps => String c p :: ps
           | [] => [String c EmptyString]
           end
  end.

(** [s.split(sep, maxsplit)]: at most [maxsplit] cuts, from the left;
    the last piece keeps the separators left in it. *)
Fixpoint split_max (sep : Ascii.ascii) (maxsplit : nat) (s : string) : list string :=
  match maxsplit with
  | O => [s]
  | S k =>
      match s with
      | EmptyString => [EmptyString]
      | String c s' =>
          if Ascii.eqb c sep then EmptyString :: split_max sep k s'
          else match split_max sep maxsplit s' with
               | p :: ps => String c p :: ps
               | [] => [String c EmptyString]
               end
      end
  end.

(** [[p.strip() for p in s.split(',') if p.strip()]], as used for tags
    and for image paths. *)
Definition split_strip (s : string) : list string :=
  List.filter nonempty (List.map strip (split ","%char s)).

(** [list(dict.fromkeys(l))]: the distinct elements, in the order of
    their first occurrence. *)
Fixpoint unique (l : list string) : list string :=
  match l with
  | [] => []
  | x :: l' => x :: List.filter (fun y => negb (String.eqb x y)) (unique l')
  end.

End Text.

(** ** Cells and rows *)

Inductive cell :=
| NaN
| Txt (s : string)
| Int (z : Z).

(** [pd.isna(value)] *)
Definition isna (c : cell) : bool :=
  match c with NaN => true | _ => false end.

(** Truth value of a cell, as in [not sku]: NaN is a float other than
    zero, so it is true. *)
Definition truthy (c : cell) : bool :=
  match c with
  | NaN => true
  | Txt s => Text.nonempty s
  | Int z => negb (z =? 0)%Z
  end.

(** [str(value)] *)
Definition str (c : cell) : string :=
  match c with
  | NaN => "nan"
  | Txt s => s
  | Int z => NilZero.string_of_int (Z.to_int z)
  end.

Definition row := list (string * cell).

Inductive exn :=
| KeyError (key : string)
| IndexError.

Inductive result (A : Type) :=
| Ok (a : A)
| Raise (e : exn).
Arguments Ok {A} a.
Arguments Raise {A} e.

Fixpoint row_find (r : row) (k : string) : option cell :=
  match r with
  | [] => None
  | (k', c) :: r' => if String.eqb k' k then Some c else row_find r' k
  end.

(** [row.get(k, default)] *)
Definition row_get (r : row) (k : string) (default : cell) : cell :=
  match row_find r k with Some c => c | None => default end.

(** [row[k]] *)
Definition row_item (r : row) (k : string) : result cell :=
  match row_find r k with Some c => Ok c | None => Raise (KeyError k) end.

(** [k in row] *)
Definition row_has (r : row) (k : string) : bool :=
  match row_find r k with Some _ => true | None => false end.

(** ** Requests, responses and events *)

(** A variant as the queries return it.  [v_sku] is null or a text;
    [v_inventory_item] is the identifier of the linked inventory record
    when the record is there; [v_selected_options] pairs option names with
    values.  A query that does not ask for a field leaves it unread. *)
Record variant_node := {
  v_id : string;
  v_sku : option string;
  v_title : string;
  v_inventory_item : option string;
  v_selected_options : list (string * string)
}.

Record product_node := {
  p_id : string;
  p_options : list string;
  p_variants : list variant_node
}.

(** [productCreate] and [productUpdate] *)
Record product_result := {
  pr_product : option string;
  pr_user_errors : list string
}.

(** [productVariantsBulkUpdate] and [productVariantsBulkCreate]: the
    identifiers of the variants written. *)
Record variants_result := {
  vr_product_variants : list string;
  vr_user_errors : list string
}.

Record inventory_result := {
  ir_inventory_item : option string;
  ir_user_errors : list string
}.

(** [fileCreate]: for each file, the identifier of its image when the
    image is there. *)
Record files_result := {
  fr_files : list (option string);
  fr_user_errors : list string
}.

(** The [data] dictionary of a response; the argument is the value under
    the root field, [None] for null.  [product] is the root field of both
    [getProductVariants] and [getProduct]. *)
Inductive payload :=
| DProductByHandle (p : option product_node)
| DProduct (p : option product_node)
| DProductVariant (v : option variant_node)
| DPublications (edges : option (list (string * string)))
| DProductCreate (r : option product_result)
| DProductUpdate (r : option product_result)
| DProductOptionsCreate (user_errors : option (list string))
| DProductVariantsBulkUpdate (r : option variants_result)
| DProductVariantsBulkCreate (r : option variants_result)
| DInventoryItemUpdate (r : option inventory_result)
| DFileCreate (r : option files_result)
| DMetafieldsSet (user_errors : option (list string))
| DPublishablePublish (user_errors : option (list string)).

Record product_input := {
  in_id : option string;
  in_handle : cell;
  in_title : cell;
  in_description : string;
  in_vendor : string;
  in_product_type : string;
  in_tags : list string
}.

(** One constructor per operation, with its variables.  The bytes, MIME
    type and file name sent by [FileCreate] are determined by the path
    and the file system and are left out. *)
Inductive request :=
| ProductByHandle (handle : cell)
| GetProductVariants (product_id : string)
| GetProduct (product_id : string)
| GetVariant (variant_id : string)
| GetPublications
| ProductCreate (input : product_input)
| ProductUpdate (input : product_input)
| ProductImages (product_id : string) (images : list string)
| ProductOptionsCreate (product_id name : string) (values : list string)
| ProductVariantsBulkUpdate (product_id : option string)
    (variants : list (string * string))
| ProductVariantsBulkCreate (product_id price : string)
    (option_value : option (string * string))
| InventoryItemUpdate (inventory_item_id sku : string)
| FileCreate (image_path : string)
| MetafieldsSet (owner namespace key value type_name : string)
| PublishablePublish (product_id publication_id : string).

Record throttle_status := { currentlyAvailable : option Z }.
Record cost := { throttleStatus : option throttle_status }.
Record extensions := { ext_cost : option cost }.

(** The decoded body of a response: whether it has the key [errors], the
    value under [extensions] and the value under [data]. *)
Record envelope := {
  env_errors : bool;
  env_extensions : option extensions;
  env_data : option payload
}.

(** What [requests.post], [raise_for_status] and [response.json] give:
    one of the two exceptions the dispatcher catches, or a body. *)
Inductive http_result :=
| TransportError
| Body (e : envelope).

Inductive event :=
| Sent (r : request)
| Sleep (seconds : Z).

(** ** Runs *)

Definition run (A : Type) : Type := list event -> result A * list event.

Definition run_ret {A} (a : A) : run A := fun tr => (Ok a, tr).

Definition run_bind {A B} (m : run A) (f : A -> run B) : run B :=
  fun tr =>
    match m tr with
    | (Ok a, tr') => f a tr'
    | (Raise e, tr') => (Raise e, tr')
    end.

Definition lift {A} (r : result A) : run A := fun tr => (r, tr).

Definition emit (e : event) : run unit := fun tr => (Ok tt, tr ++ [e]).

Notation "'let*' x := m 'in' k" := (run_bind m (fun x => k))
  (at level 10, x name, m at level 100, k at level 200).
Notation "'let*' ' p := m 'in' k" :=
  (run_bind m (fun x => match x with p => k end))
  (at level 10, p pattern, m at level 100, k at level 200).
Notation "m ;; k" := (run_bind m (fun _ => k))
  (at level 100, k at level 200, right associativity).

(** [for x in l: body(x)] *)
Fixpoint for_each {A} (body : A -> run unit) (l : list A) : run unit :=
  match l with
  | [] => run_ret tt
  | x :: l' => body x ;; for_each body l'
  end.

Definition when (b : bool) (m : run unit) : run unit :=
  if b then m else run_ret tt.

(** Truth value of an optional text: [None] and the empty text are false. *)
Definition some_text (o : option string) : bool :=
  match o with Some s => Text.nonempty s | None => false end.

(** [a or b] on optional texts. *)
Definition or_else (a b : option string) : option string :=
  if some_text a then a else b.

(** ** Reading a response

    [data and data.get(field)]: the value under a root field, [None] when
    there is no data, another root field or null. *)

Definition get_productByHandle (d : option payload) : option product_node :=
  match d with Some (DProductByHandle p) => p | _ => None end.
Definition get_product (d : option payload) : option product_node :=
  match d with Some (DProduct p) => p | _ => None end.
Definition get_productVariant (d : option payload) : option variant_node :=
  match d with Some (DProductVariant v) => v | _ => None end.
Definition get_publications (d : option payload) : option (list (string * string)) :=
  match d with Some (DPublications e) => e | _ => None end.
Definition get_productCreate (d : option payload) : option product_result :=
  match d with Some (DProductCreate r) => r | _ => None end.
Definition get_productUpdate (d : option payload) : option product_result :=
  match d with Some (DProductUpdate r) => r | _ => None end.
Definition get_productOptionsCreate (d : option payload) : option (list string) :=
  match d with Some (DProductOptionsCreate r) => r | _ => None end.
Definition get_productVariantsBulkUpdate (d : option payload) : option variants_result :=
  match d with Some (DProductVariantsBulkUpdate r) => r | _ => None end.
Definition get_productVariantsBulkCreate (d : option payload) : option variants_result :=
  match d with Some (DProductVariantsBulkCreate r) => r | _ => None end.
Definition get_inventoryItemUpdate (d : option payload) : option inventory_result :=
  match d with Some (DInventoryItemUpdate r) => r | _ => None end.
Definition get_fileCreate (d : option payload) : option files_result :=
  match d with Some (DFileCreate r) => r | _ => None end.
Definition get_metafieldsSet (d : option payload) : option (list string) :=
  match d with Some (DMetafieldsSet r) => r | _ => None end.
Definition get_publishablePublish (d : option payload) : option (list string) :=
  match d with Some (DPublishablePublish r) => r | _ => None end.

Definition is_nil {A} (l : list A) : bool :=
  match l with [] => true | _ => false end.

(** ** The dispatcher's reading of the rate-limit telemetry *)

(** [cost.get('throttleStatus', {}).get('currentlyAvailable', 1000)] *)
Definition available (c : cost) : Z :=
  match throttleStatus c with
  | Some t => match currentlyAvailable t with Some a => a | None => 1000%Z end
  | None => 1000%Z
  end.

(** Whether the dispatcher sleeps: [extensions] and [cost] are there and
    the budget is below 200. *)
Definition rate_limit_low (e : envelope) : bool :=
  match env_extensions e with
  | Some x =>
      match ext_cost x with
      | Some c => (available c <? 200)%Z
      | None => false
      end
  | None => false
  end.

(** ** Pure parts of the lookup and of the two paths *)

(** The loop of [check_product_exists] over the variant edges: the SKU
    index and the default variant. *)
Definition scan_variant (has_options : bool) (count : nat)
    (acc : gmap string string * option string) (variant_node : variant_node)
    : gmap string string * option string :=
  let '(variants, default_variant_id) := acc in
  let default_variant_id :=
    if negb has_options && (count =? 1)%nat then Some (v_id variant_node)
    else if String.eqb (v_title variant_node) "Default Title" && negb has_options
         then Some (v_id variant_node)
         else default_variant_id in
  let variants :=
    match v_sku variant_node with
    | Some sku =>
        if Text.nonempty sku
        then <[Text.strip sku := v_id variant_node]> variants
        else variants
    | None => variants
    end in
  (variants, default_variant_id).

Definition scan_variants (has_options : bool) (variants_list : list variant_node)
    : gmap string string * option string :=
  fold_left (scan_variant has_options (length variants_list)) variants_list (∅, None).

(** What [check_product_exists] returns for a product that is there. *)
Definition resolve (product_data : product_node)
    : option string * gmap string string * list string * option string :=
  let existing_options := p_options product_data in
  let has_options := (0 <? length existing_options)%nat in
  let '(variants, default_variant_id) :=
    scan_variants has_options (p_variants product_data) in
  (Some (p_id product_data), variants, existing_options, default_variant_id).

(** [existing_variants.get(str(sku).strip())] in [main]. *)
Definition match_by_sku (existing_variants : gmap string string) (sku : cell)
    : option string :=
  existing_variants !! Text.strip (str sku).

(** [not sku or pd.isna(sku)] *)
Definition no_sku (r : row) : bool :=
  let sku := row_get r "variant_sku" (Txt "") in
  negb (truthy sku) || isna sku.

Definition price_of (r : row) : string :=
  str (row_get r "variant_price" (Txt "0.00")).

(** The fields of [ProductInput] taken from a row; [id] is set on the
    update path only.  The title is read first, for the progress line. *)
Definition product_input_of (id : option string) (r : row) : result product_input :=
  match row_item r "title" with
  | Raise e => Raise e
  | Ok title =>
      match row_item r "handle" with
      | Raise e => Raise e
      | Ok handle =>
          Ok {| in_id := id;
                in_handle := handle;
                in_title := title;
                in_description := str (row_get r "description" (Txt ""));
                in_vendor := str (row_get r "vendor" (Txt ""));
                in_product_type := str (row_get r "productType" (Txt ""));
                in_tags := Text.split_strip (str (row_get r "tags" (Txt ""))) |}
      end
  end.

(** [option_name]: [None], or the trimmed text of the first row's
    [variant_option1_name] when that is not NaN. *)
Definition option_name_of (main_row : row) : result (option string) :=
  if negb (isna (row_get main_row "variant_option1_name" (Txt "")))
  then match row_item main_row "variant_option1_name" with
       | Ok c => Ok (Some (Text.strip (str c)))
       | Raise e => Raise e
       end
  else Ok None.

(** [[str(row['variant_option1_value']) for row in group if not
    pd.isna(row.get('variant_option1_value', ''))]] *)
Fixpoint option_values_of (group_df : list row) : result (list string) :=
  match group_df with
  | [] => Ok []
  | r :: rest =>
      if negb (isna (row_get r "variant_option1_value" (Txt "")))
      then match row_item r "variant_option1_value" with
           | Raise e => Raise e
           | Ok c =>
               match option_values_of rest with
               | Ok l => Ok (str c :: l)
               | Raise e => Raise e
               end
           end
      else option_values_of rest
  end.

(** Whether some variant already shows a linked inventory record. *)
Definition has_inventory_items (existing_variants_data : option payload) : bool :=
  match get_product existing_variants_data with
  | Some product =>
      existsb (fun variant => some_text (v_inventory_item variant)) (p_variants product)
  | None => false
  end.

(** The two indexes built from the freshly created variants: option value
    (as it is and in lower case) to variant, and variant to inventory
    record. *)
Definition index_variant (acc : gmap string string * gmap string string)
    (variant : variant_node) : gmap string string * gmap string string :=
  let '(variants_map, variant_inventory_map) := acc in
  let variant_id := v_id variant in
  let variants_map :=
    match v_selected_options variant with
    | (_, value) :: _ =>
        let option_value := Text.strip value in
        <[Text.lower option_value := variant_id]>
          (<[option_value := variant_id]> variants_map)
    | [] => variants_map
    end in
  let variant_inventory_map :=
    match v_inventory_item variant with
    | Some inventory_item_id =>
        if Text.nonempty inventory_item_id
        then <[variant_id := inventory_item_id]> variant_inventory_map
        else variant_inventory_map
    | None => variant_inventory_map
    end in
  (variants_map, variant_inventory_map).

Definition index_variants (existing_variants_data : option payload)
    : gmap string string * gmap string string :=
  match get_product existing_variants_data with
  | Some product => fold_left index_variant (p_variants product) (∅, ∅)
  | None => (∅, ∅)
  end.

(** [variants_map.get(option_value) or variants_map.get(option_value.lower())] *)
Definition match_by_option_value (variants_map : gmap string string)
    (option_value : string) : option string :=
  or_else (variants_map !! option_value) (variants_map !! Text.lower option_value).

(** What the row loop of the create path accumulates. *)
Record batch := {
  variants_to_update : list (string * string);
  variant_sku_map : gmap string (option string * string)
}.

Definition empty_batch : batch :=
  {| variants_to_update := []; variant_sku_map := ∅ |}.

(** The two identical blocks that queue a price update for [variant_id]
    and remember the SKU to write on it. *)
Definition queue (variant_inventory_map : gmap string string)
    (variant_id : string) (r : row) (sku : cell) (b : batch) : batch :=
  let inventory_item_id := variant_inventory_map !! variant_id in
  {| variants_to_update := variants_to_update b ++ [(variant_id, price_of r)];
     variant_sku_map :=
       <[variant_id :=
           (if some_text inventory_item_id then inventory_item_id else None,
            str sku)]> (variant_sku_map b) |}.

(** The first variant without selected options. *)
Definition default_variant_of (existing_variants_data : option payload)
    : option variant_node :=
  match get_product existing_variants_data with
  | Some product =>
      List.find (fun variant => is_nil (v_selected_options variant))
        (p_variants product)
  | None => None
  end.

(** One turn of the row loop of [create_product_with_variants]. *)
Definition collect_row (option_name : option string)
    (existing_variants_data : option payload)
    (variants_map variant_inventory_map : gmap string string)
    (b : batch) (r : row) : result batch :=
  let sku := row_get r "variant_sku" (Txt "") in
  if negb (truthy sku) || isna sku then Ok b
  else
    let option_value :=
      if some_text option_name
         && negb (isna (row_get r "variant_option1_value" (Txt "")))
      then match row_item r "variant_option1_value" with
           | Ok c => Ok (Some (Text.strip (str c)))
           | Raise e => Raise e
           end
      else Ok None in
    match option_value with
    | Raise e => Raise e
    | Ok option_value =>
        let variant_id :=
          match option_value with
          | Some v =>
              if Text.nonempty v then match_by_option_value variants_map v
              else None
          | None => None
          end in
        if some_text variant_id
        then Ok (queue variant_inventory_map (default "" variant_id) r sku b)
        else if negb (some_text option_name) then
          match default_variant_of existing_variants_data with
          | Some default_variant =>
              Ok (queue variant_inventory_map (v_id default_variant) r sku b)
          | None => Ok b
          end
        else Ok b
    end.

Fixpoint collect_rows (option_name : option string)
    (existing_variants_data : option payload)
    (variants_map variant_inventory_map : gmap string string)
    (b : batch) (group_df : list row) : result batch :=
  match group_df with
  | [] => Ok b
  | r :: rest =>
      match collect_row option_name existing_variants_data
              variants_map variant_inventory_map b r with
      | Ok b' =>
          collect_rows option_name existing_variants_data
            variants_map variant_inventory_map b' rest
      | Raise e => Raise e
      end
  end.

(** The pieces of a [metafield_...] column name: namespace, key and type,
    when the name gives at least the first two. *)
Definition metafield_parts (col : string) : option (string * string * string) :=
  match Text.split_max "_"%char 2 (Text.replace "metafield_" "" col) with
  | [namespace; key] => Some (namespace, key, "single_line_text_field")
  | [namespace; key; type_name] => Some (namespace, key, type_name)
  | _ => None
  end.

(** [pd.isna(value) or not str(value).strip()] *)
Definition blank (value : cell) : bool :=
  isna value || negb (Text.nonempty (Text.strip (str value))).

Record dataframe := {
  columns : list string;
  groups : list (cell * list row)
}.

Definition required_columns : list string :=
  ["handle"; "title"; "variant_sku"; "variant_price"].

(** [group_df.iloc[0]] *)
Definition iloc0 (group_df : list row) : result row :=
  match group_df with
  | r :: _ => Ok r
  | [] => Raise IndexError
  end.

(** ** The script *)

Section Sync.

(** The remote side: what the request gets, given all that happened
    before it. *)
Variable remote : list event -> request -> http_result.

(** Whether a path names a file that is there and can be read. *)
Variable local_file : string -> bool.

Definition run_graphql_query (query : request) : run (option payload) :=
  fun tr =>
    match remote tr query with
    | TransportError => (Ok None, tr ++ [Sent query])
    | Body response_data =>
        if env_errors response_data then (Ok None, tr ++ [Sent query])
        else if rate_limit_low response_data
             then (Ok (env_data response_data), tr ++ [Sent query; Sleep 5])
             else (Ok (env_data response_data), tr ++ [Sent query])
    end.

Definition upload_image_to_shopify (image_path : string) : run (option string) :=
  if negb (Text.nonempty image_path) then run_ret None
  else
    let image_path := Text.strip image_path in
    if String.prefix "http://" image_path || String.prefix "https://" image_path
    then run_ret (Some image_path)
    else if local_file image_path then
      let* data := run_graphql_query (FileCreate image_path) in
      match get_fileCreate data with
      | Some r =>
          if negb (is_nil (fr_user_errors r)) then run_ret None
          else match fr_files r with
               | Some image_id :: _ => run_ret (Some image_id)
               | _ => run_ret None
               end
      | None => run_ret None
      end
    else run_ret None.

Fixpoint upload_all (paths : list string) : run (list string) :=
  match paths with
  | [] => run_ret []
  | path :: rest =>
      let* image_id := upload_image_to_shopify path in
      let* image_ids := upload_all rest in
      run_ret (if some_text image_id then default "" image_id :: image_ids
               else image_ids)
  end.

Definition add_images_to_product (product_id : string) (image_paths : cell)
    : run unit :=
  if negb (truthy image_paths) || isna image_paths then run_ret tt
  else
    let paths :=
      match image_paths with
      | Txt s => Text.split_strip s
      | _ => [str image_paths]
      end in
    if is_nil paths then run_ret tt
    else
      let* image_ids := upload_all paths in
      if is_nil image_ids then run_ret tt
      else run_graphql_query (ProductImages product_id image_ids) ;; run_ret tt.

Definition create_metafield (product_id namespace key : string) (value : cell)
    (type_name : string) : run bool :=
  let* data :=
    run_graphql_query (MetafieldsSet product_id namespace key (str value) type_name) in
  match get_metafieldsSet data with
  | Some user_errors => run_ret (is_nil user_errors)
  | None => run_ret false
  end.

(** One turn of the loop over the metafield columns. *)
Definition add_metafield (product_id : string) (field : string * cell) : run unit :=
  let '(col, value) := field in
  if blank value then run_ret tt
  else match metafield_parts col with
       | Some (namespace, key, type_name) =>
           create_metafield product_id namespace key value type_name ;; run_ret tt
       | None => run_ret tt
       end.

(** The columns of a row are distinct, so [row_data[col]] is the cell
    paired with [col]. *)
Definition add_metafields_to_product (product_id : string) (row_data : row)
    : run unit :=
  let metafield_columns :=
    List.filter (fun field => String.prefix "metafield_" (fst field)) row_data in
  for_each (add_metafield product_id) metafield_columns.

Definition check_product_exists (handle : cell)
    : run (option string * gmap string string * list string * option string) :=
  let* data := run_graphql_query (ProductByHandle handle) in
  match get_productByHandle data with
  | Some product_data => run_ret (resolve product_data)
  | None => run_ret (None, ∅, [], None)
  end.

Definition update_variant_sku_individual (inventory_item_id sku : string)
    : run bool :=
  if negb (Text.nonempty inventory_item_id) then run_ret false
  else
    let* data := run_graphql_query (InventoryItemUpdate inventory_item_id sku) in
    match get_inventoryItemUpdate data with
    | Some r => run_ret (bool_decide (is_Some (ir_inventory_item r)))
    | None => run_ret false
    end.

Definition update_variant_sku (variant_id sku : string) : run bool :=
  let* data := run_graphql_query (GetVariant variant_id) in
  match get_productVariant data with
  | Some variant =>
      match v_inventory_item variant with
      | Some inventory_item_id =>
          update_variant_sku_individual inventory_item_id sku
      | None => run_ret false
      end
  | None => run_ret false
  end.

Definition publish_product_to_sales_channel (product_id : string) : run unit :=
  let* data := run_graphql_query GetPublications in
  match get_publications data with
  | None => run_ret tt
  | Some edges =>
      let online_store_publication_id :=
        fst <$> List.find (fun node => String.eqb (snd node) "Online Store") edges in
      if negb (some_text online_store_publication_id) then run_ret tt
      else
        run_graphql_query
          (PublishablePublish product_id (default "" online_store_publication_id)) ;;
        run_ret tt
  end.

(** The readiness poll: [attempts] is what is left of [range(3)] and
    [last] the latest answer. *)
Fixpoint poll (product_id : string) (attempts : list nat) (last : option payload)
    : run (option payload) :=
  match attempts with
  | [] => run_ret last
  | attempt :: rest =>
      let* existing_variants_data :=
        run_graphql_query (GetProductVariants product_id) in
      if has_inventory_items existing_variants_data
      then run_ret existing_variants_data
      else
        when (attempt <? 2)%nat (emit (Sleep 2)) ;;
        poll product_id rest existing_variants_data
  end.

(** The SKU backfill for one variant the bulk update confirmed. *)
Definition backfill_sku (b : batch) (variant_id : string) : run unit :=
  match variant_sku_map b !! variant_id with
  | Some (inventory_item_id, sku) =>
      if some_text inventory_item_id
      then update_variant_sku_individual (default "" inventory_item_id) sku ;;
           run_ret tt
      else update_variant_sku variant_id sku ;; run_ret tt
  | None => run_ret tt
  end.

Definition create_product_with_variants (group_df : list row)
    : run (option string) :=
  let* main_row := lift (iloc0 group_df) in
  let* product_input := lift (product_input_of None main_row) in
  let* data := run_graphql_query (ProductCreate product_input) in
  match get_productCreate data ≫= pr_product with
  | None => run_ret None
  | Some product_id =>
      let* option_name := lift (option_name_of main_row) in
      let* option_values := lift (option_values_of group_df) in
      let unique_values := Text.unique option_values in
      when (some_text option_name && negb (is_nil unique_values))
        (let* options_data :=
           run_graphql_query
             (ProductOptionsCreate product_id (default "" option_name) unique_values) in
         match get_productOptionsCreate options_data with
         | Some user_errors => when (is_nil user_errors) (emit (Sleep 2))
         | None => run_ret tt
         end) ;;
      let* existing_variants_data := poll product_id [0; 1; 2]%nat None in
      let '(variants_map, variant_inventory_map) :=
        index_variants existing_variants_data in
      let* b :=
        lift (collect_rows option_name existing_variants_data
                variants_map variant_inventory_map empty_batch group_df) in
      when (negb (is_nil (variants_to_update b)))
        (let* update_data :=
           run_graphql_query
             (ProductVariantsBulkUpdate (Some product_id) (variants_to_update b)) in
         match get_productVariantsBulkUpdate update_data with
         | Some r => for_each (backfill_sku b) (vr_product_variants r)
         | None => run_ret tt
         end) ;;
      when (row_has main_row "images")
        (add_images_to_product product_id (row_get main_row "images" NaN)) ;;
      add_metafields_to_product product_id main_row ;;
      publish_product_to_sales_channel product_id ;;
      run_ret (Some product_id)
  end.

Definition update_product (product_id : string) (row_data : row) : run unit :=
  let* input_vars := lift (product_input_of (Some product_id) row_data) in
  let* data := run_graphql_query (ProductUpdate input_vars) in
  match get_productUpdate data ≫= pr_product with
  | Some _ =>
      when (row_has row_data "images")
        (add_images_to_product product_id (row_get row_data "images" NaN)) ;;
      add_metafields_to_product product_id row_data
  | None => run_ret tt
  end.

Definition ensure_product_options_exist (product_id : string)
    (option_name : option string) (option_values : list string) : run bool :=
  if negb (some_text option_name) || is_nil option_values then run_ret true
  else
    let* data := run_graphql_query (GetProduct product_id) in
    let existing_option_names :=
      match get_product data with
      | Some product => p_options product
      | None => []
      end in
    if negb (existsb (String.eqb (default "" option_name)) existing_option_names)
    then
      let* options_data :=
        run_graphql_query
          (ProductOptionsCreate product_id (default "" option_name)
             (Text.unique option_values)) in
      match get_productOptionsCreate options_data with
      | Some user_errors => run_ret (is_nil user_errors)
      | None => run_ret false
      end
    else run_ret true.

Definition update_variant (variant_id : string) (row_data : row) : run unit :=
  let* data :=
    run_graphql_query
      (ProductVariantsBulkUpdate None [(variant_id, price_of row_data)]) in
  match get_productVariantsBulkUpdate data with
  | Some r =>
      if negb (is_nil (vr_product_variants r)) then
        let sku := row_get row_data "variant_sku" (Txt "") in
        when (truthy sku && negb (isna sku))
          (update_variant_sku variant_id (str sku) ;; run_ret tt)
      else run_ret tt
  | None => run_ret tt
  end.

Definition create_variant (product_id : string) (row_data : row)
    (option_name default_variant_id : option string) : run unit :=
  if negb (some_text option_name) && some_text default_variant_id
  then update_variant (default "" default_variant_id) row_data
  else
    let* option_values :=
      lift (if some_text option_name
               && negb (isna (row_get row_data "variant_option1_value" (Txt "")))
            then match row_item row_data "variant_option1_value" with
                 | Ok c => Ok (Some (str c, default "" option_name))
                 | Raise e => Raise e
                 end
            else Ok None) in
    let* data :=
      run_graphql_query
        (ProductVariantsBulkCreate product_id (price_of row_data) option_values) in
    match get_productVariantsBulkCreate data with
    | Some r =>
        match vr_product_variants r with
        | variant_id :: _ =>
            let sku := row_get row_data "variant_sku" (Txt "") in
            when (truthy sku && negb (isna sku))
              (emit (Sleep 2) ;;
               update_variant_sku variant_id (str sku) ;; run_ret tt)
        | [] => run_ret tt
        end
    | None => run_ret tt
    end.

(** One turn of the row loop of the update path in [main]. *)
Definition sync_row (product_id : string) (option_name : option string)
    (existing_variants : gmap string string) (default_variant_id : option string)
    (r : row) : run unit :=
  if no_sku r then run_ret tt
  else
    match match_by_sku existing_variants (row_get r "variant_sku" (Txt "")) with
    | None => create_variant product_id r option_name default_variant_id
    | Some variant_id => update_variant variant_id r
    end.

(** What [main] does for an existing product once [update_product] has
    returned. *)
Definition sync_variants (product_id : string) (main_row : row)
    (group_df : list row) (existing_variants : gmap string string)
    (default_variant_id : option string) : run unit :=
  let* option_name := lift (option_name_of main_row) in
  when (some_text option_name)
    (let* option_values := lift (option_values_of group_df) in
     when (negb (is_nil option_values))
       (ensure_product_options_exist product_id option_name option_values ;;
        run_ret tt)) ;;
  for_each (sync_row product_id option_name existing_variants default_variant_id)
    group_df.

(** The body of the loop of [main] over the groups. *)
Definition process_group (group : cell * list row) : run unit :=
  let '(handle, group_df) := group in
  let* main_row := lift (iloc0 group_df) in
  let* '(product_id, existing_variants, existing_options, default_variant_id) :=
    check_product_exists handle in
  match product_id with
  | None => create_product_with_variants group_df ;; run_ret tt
  | Some product_id =>
      update_product product_id main_row ;;
      sync_variants product_id main_row group_df existing_variants
        default_variant_id
  end.

Definition process_groups (grouped : list (cell * list row)) : run unit :=
  for_each process_group grouped.

(** [main] on a spreadsheet already read and grouped by handle: the
    events of the run.  An exception ends the run where it is raised. *)
Definition main (df : dataframe) : list event :=
  let missing_columns :=
    List.filter (fun col => negb (existsb (String.eqb col) (columns df)))
      required_columns in
  if negb (is_nil missing_columns) then []
  else snd (process_groups (groups df) []).

End Sync.

(** ** Notions used to state the properties *)

(** The budget a response reports, when it reports one. *)
Definition reported_budget (e : envelope) : option Z :=
  match env_extensions e with
  | Some x =>
      match ext_cost x with
      | Some c =>
          match throttleStatus c with
          | Some t => currentlyAvailable t
          | None => None
          end
      | None => None
      end
  | None => None
  end.

(** The requests of a list of events, in order. *)
Definition requests_of (tr : list event) : list request :=
  omap (fun e => match e with Sent r => Some r | Sleep _ => None end) tr.

Definition default_titled (v : variant_node) : bool :=
  String.eqb (v_title v) "Default Title".

(** The fourth component of what the lookup returns. *)
Definition default_variant_id_of (p : product_node) : option string :=
  snd (resolve p).

(** The second component of what the lookup returns. *)
Definition variants_by_sku (p : product_node) : gmap string string :=
  snd (fst (fst (resolve p))).

(** The trimmed value of the first selected option of a variant, the key
    under which the create path indexes it. *)
Definition first_option_value (v : variant_node) : option string :=
  match v_selected_options v with
  | (_, value) :: _ => Some (Text.strip value)
  | [] => None
  end.

(** The decomposition the docstring of [add_metafields_to_product]
    describes, [metafield_namespace_key_type]: the prefix is taken off the
    front of the name and the rest is cut at its first two underscores. *)
Definition metafield_parts_documented (col : string)
    : option (string * string * string) :=
  match Text.split_max "_"%char 2 (Text.drop (String.length "metafield_") col) with
  | [namespace; key] => Some (namespace, key, "single_line_text_field")
  | [namespace; key; type_name] => Some (namespace, key, type_name)
  | _ => None
  end.

(** What the dispatcher returns for a transport outcome, and the sleep
    it takes before returning. *)
Definition data_of (h : http_result) : option payload :=
  match h with
  | TransportError => None
  | Body e => if env_errors e then None else env_data e
  end.

Definition cooldown_of (h : http_result) : list event :=
  match h with
  | TransportError => []
  | Body e => if env_errors e then [] else if rate_limit_low e then [Sleep 5] else []
  end.

(** The text of a row's SKU, as it is sent. *)
Definition sku_text (r : row) : string :=
  str (row_get r "variant_sku" (Txt "")).





(** A remote side that confirms every price update and shows an inventory
    record for every variant asked for. *)
Definition confirming (remote : list event -> request -> http_result) : Prop :=
  forall tr q,
    match q with
    | ProductVariantsBulkUpdate _ _ =>
        exists r, data_of (remote tr q) = Some (DProductVariantsBulkUpdate (Some r))
                  /\ vr_product_variants r <> []
    | GetVariant _ =>
        exists v inv, data_of (remote tr q) = Some (DProductVariant (Some v))
                      /\ v_inventory_item v = Some inv /\ inv <> ""
    | _ => True
    end.

(** ** Sample data *)

Definition variant (id : string) (sku : option string) (title : string)
    (inventory_item : option string) (selected : list (string * string))
    : variant_node :=
  {| v_id := id; v_sku := sku; v_title := title;
     v_inventory_item := inventory_item; v_selected_options := selected |}.

Definition budget_envelope (budget : Z) (d : payload) : envelope :=
  {| env_errors := false;
     env_extensions :=
       Some {| ext_cost :=
                 Some {| throttleStatus :=
                           Some {| currentlyAvailable := Some budget |} |} |};
     env_data := Some d |}.

Definition plain_envelope (d : payload) : envelope :=
  {| env_errors := false; env_extensions := None; env_data := Some d |}.

(** A remote side that reports a budget of 150 with every answer. *)
Definition low_budget_remote (_ : list event) (_ : request) : http_result :=
  Body (budget_envelope 150 (DPublications None)).

(** A product without options whose two variants both carry the default
    title. *)
Definition two_default_titles : product_node :=
  {| p_id := "gid://shopify/Product/1";
     p_options := [];
     p_variants := [variant "v1" None "Default Title" None [];
                    variant "v2" None "Default Title" None []] |}.

Definition abc_product : product_node :=
  {| p_id := "gid://shopify/Product/2";
     p_options := ["Size"];
     p_variants := [variant "v1" (Some "ABC-1") "Small" None [("Size", "Small")]] |}.

(** A product whose option "Size" was just created with the value
    "Small", and the answer to [getProductVariants] that shows it. *)
Definition small_variant : variant_node :=
  variant "v1" None "Small" (Some "i1") [("Size", "Small")].

Definition small_product : product_node :=
  {| p_id := "gid://shopify/Product/3";
     p_options := ["Size"];
     p_variants := [small_variant] |}.

Definition small_variants : option payload :=
  Some (DProduct (Some small_product)).


Definition row_medium : row :=
  [("handle", Txt "mug"); ("title", Txt "Mug"); ("variant_sku", Txt "MUG-M");
   ("variant_price", Txt "11.00"); ("variant_option1_name", Txt "Size");
   ("variant_option1_value", Txt "Medium")].

(** A remote side that never answers. *)
Definition silent_remote (_ : list event) (_ : request) : http_result :=
  TransportError.

(** A remote side that confirms what it is asked to write. *)
Definition confirming_remote (_ : list event) (q : request) : http_result :=
  match q with
  | ProductVariantsBulkUpdate _ variants =>
      Body (plain_envelope (DProductVariantsBulkUpdate
              (Some {| vr_product_variants := "gid://shopify/ProductVariant/1"
                                              :: List.map fst variants;
                       vr_user_errors := [] |})))
  | GetVariant id =>
      Body (plain_envelope (DProductVariant
              (Some (variant id None "Default Title" (Some "i1") []))))
  | InventoryItemUpdate inv sku =>
      Body (plain_envelope (DInventoryItemUpdate
              (Some {| ir_inventory_item := Some inv; ir_user_errors := [] |})))
  | _ => TransportError
  end.

Definition row_a : row :=
  [("handle", Txt "mug"); ("title", Txt "Mug"); ("variant_sku", Txt "MUG-A");
   ("variant_price", Txt "9.00"); ("variant_option1_name", NaN);
   ("variant_option1_value", NaN)].

Definition row_b : row :=
  [("handle", Txt "mug"); ("title", Txt "Mug"); ("variant_sku", Txt "MUG-B");
   ("variant_price", Txt "12.50"); ("variant_option1_name", NaN);
   ("variant_option1_value", NaN)].

(** An existing product with one variant, a spreadsheet with one row for
    it, and a remote side that finds the product and rejects the update
    of its core fields. *)
Definition existing_mug : product_node :=
  {| p_id := "gid://shopify/Product/7";
     p_options := [];
     p_variants := [variant "v7" (Some "MUG-S") "Default Title" None []] |}.

Definition mug_row : row :=
  [("handle", Txt "mug"); ("title", Txt "Mug"); ("variant_sku", Txt "MUG-S");
   ("variant_price", Txt "9.00"); ("variant_option1_name", Txt "Size");
   ("variant_option1_value", Txt "Small");
   ("images", Txt "https://x/a.jpg"); ("metafield_custom_brand", Txt "Acme")].

Definition mug_df : dataframe :=
  {| columns := List.map fst mug_row; groups := [(Txt "mug", [mug_row])] |}.

Definition mug_input (id : option string) : product_input :=
  {| in_id := id; in_handle := Txt "mug"; in_title := Txt "Mug";
     in_description := ""; in_vendor := ""; in_product_type := "";
     in_tags := [] |}.

Definition rejecting_remote (_ : list event) (q : request) : http_result :=
  match q with
  | ProductByHandle _ => Body (plain_envelope (DProductByHandle (Some existing_mug)))
  | ProductUpdate _ =>
      Body (plain_envelope (DProductUpdate
              (Some {| pr_product := None;
                       pr_user_errors := ["Title is too long"] |})))
  | ProductCreate _ =>
      Body (plain_envelope (DProductCreate
              (Some {| pr_product := None;
                       pr_user_errors := ["Handle is taken"] |})))
  | _ => TransportError
  end.

(** A remote side that knows no product and rejects every creation. *)
Definition empty_shop (_ : list event) (q : request) : http_result :=
  match q with
  | ProductByHandle _ => Body (plain_envelope (DProductByHandle None))
  | ProductCreate _ =>
      Body (plain_envelope (DProductCreate
              (Some {| pr_product := None;
                       pr_user_errors := ["Title is too long"] |})))
  | _ => TransportError
  end.

Definition no_files (_ : string) : bool := false.

(** ** Notions used for the further properties *)

(** A run that raises nothing, only adds events, and sends only requests
    that [ok] accepts. *)
Definition sends (ok : request -> bool) {A} (m : run A) : Prop :=
  forall tr, exists a ev,
    m tr = (Ok a, tr ++ ev) /\ Forall (fun q => ok q = true) (requests_of ev).

(** A path that is passed through as it is. *)
Definition is_url (image_path : string) : bool :=
  String.prefix "http://" image_path || String.prefix "https://" image_path.

(** A path whose file is sent to the shop. *)
Definition uploaded (local_file : string -> bool) (image_path : string) : bool :=
  Text.nonempty image_path
  && negb (is_url (Text.strip image_path))
  && local_file (Text.strip image_path).

(** The paths read from an [images] cell, when the cell is read at all. *)
Definition image_paths_of (image_paths : cell) : list string :=
  if negb (truthy image_paths) || isna image_paths then []
  else match image_paths with
       | Txt s => Text.split_strip s
       | _ => [str image_paths]
       end.

(** The upsert a column of a row stands for, if any. *)
Definition metafield_request (product_id : string) (field : string * cell)
    : option request :=
  if String.prefix "metafield_" (fst field) && negb (blank (snd field)) then
    match metafield_parts (fst field) with
    | Some (namespace, key, type_name) =>
        Some (MetafieldsSet product_id namespace key (str (snd field)) type_name)
    | None => None
    end
  else None.

(** A remote side whose every answer has the key [errors], with data and
    a low budget beside it. *)
Definition erring_remote (_ : list event) (_ : request) : http_result :=
  Body {| env_errors := true;
          env_extensions := env_extensions (budget_envelope 150 (DPublications None));
          env_data := Some (DPublications None) |}.

(** Whether a variant is indexed under the SKU key [k]. *)
Definition sku_key_is (k : string) (v : variant_node) : bool :=
  match v_sku v with
  | Some sku => Text.nonempty sku && String.eqb (Text.strip sku) k
  | None => false
  end.

(** A pause of the readiness poll. *)
Definition is_pause (e : event) : bool :=
  match e with
  | Sleep seconds => (seconds =? 2)%Z
  | Sent _ => false
  end.

(** The option names a [getProduct] answer shows; a failed read shows
    none. *)
Definition shown_options (h : http_result) : list string :=
  match get_product (data_of h) with
  | Some product => p_options product
  | None => []
  end.

(** A remote side on which the option "Size" is already there. *)
Definition sized_remote (_ : list event) (q : request) : http_result :=
  match q with
  | GetProduct _ => Body (plain_envelope (DProduct (Some small_product)))
  | _ => TransportError
  end.

(** A remote side with two sales channels. *)
Definition channels_remote (_ : list event) (q : request) : http_result :=
  match q with
  | GetPublications =>
      Body (plain_envelope (DPublications
              (Some [("gid://shopify/Publication/1", "Point of Sale");
                     ("gid://shopify/Publication/2", "Online Store")])))
  | _ => TransportError
  end.


(** The requests that write a SKU: the query for the inventory record and
    the update of that record. *)
Definition sku_step (q : request) : bool :=
  match q with
  | GetVariant _ | InventoryItemUpdate _ _ => true
  | _ => false
  end.

(** The requests that attach images and metafields to the product
    [product_id]. *)
Definition asset_step (product_id : string) (q : request) : bool :=
  match q with
  | FileCreate _ => true
  | ProductImages p _ => String.eqb p product_id
  | MetafieldsSet p _ _ _ _ => String.eqb p product_id
  | _ => false
  end.

(** The requests of the create path after the creation of the shell
    [product_id]. *)
Definition create_step (product_id : string) (q : request) : bool :=
  match q with
  | ProductOptionsCreate p _ _ => String.eqb p product_id
  | GetProductVariants p => String.eqb p product_id
  | ProductVariantsBulkUpdate (Some p) _ => String.eqb p product_id
  | GetPublications => true
  | PublishablePublish p _ => String.eqb p product_id
  | _ => sku_step q || asset_step product_id q
  end.


(** A row that has the columns the script reads without a default. *)
Definition complete (r : row) : bool :=
  row_has r "handle" && row_has r "title"
  && row_has r "variant_option1_name" && row_has r "variant_option1_value".

(** A run that raises nothing, returns [a], sends only requests that [ok]
    accepts, and sends [q] among them. *)
Definition ends_with (ok : request -> bool) (q : request) {A} (a : A) (m : run A)
    : Prop :=
  forall tr, exists ev,
    m tr = (Ok a, tr ++ ev)
    /\ Forall (fun q' => ok q' = true) (requests_of ev)
    /\ q ∈ requests_of ev.


Definition cup_row : row :=
  [("handle", Txt "cup"); ("title", Txt "Cup"); ("variant_sku", Txt "CUP-1");
   ("variant_price", Txt "4.00"); ("variant_option1_name", NaN);
   ("variant_option1_value", NaN)].


Definition priceless_df : dataframe :=
  {| columns := ["handle"; "title"; "variant_sku"];
     groups := [(Txt "cup", [[("handle", Txt "cup"); ("title", Txt "Cup");
                              ("variant_sku", Txt "CUP-1")]])] |}.

(** A row without the option columns, and a remote side that knows no
    product and creates every shell it is asked for. *)
Definition bare_row : row :=
  [("handle", Txt "cup"); ("title", Txt "Cup"); ("variant_sku", Txt "CUP-1");
   ("variant_price", Txt "4.00")].

Definition cup_input (id : option string) : product_input :=
  {| in_id := id; in_handle := Txt "cup"; in_title := Txt "Cup";
     in_description := ""; in_vendor := ""; in_product_type := "";
     in_tags := [] |}.

Definition creating_remote (_ : list event) (q : request) : http_result :=
  match q with
  | ProductByHandle _ => Body (plain_envelope (DProductByHandle None))
  | ProductCreate _ =>
      Body (plain_envelope (DProductCreate
              (Some {| pr_product := Some "gid://shopify/Product/9";
                       pr_user_errors := [] |})))
  | _ => TransportError
  end.

(** What the create path remembers as inventory record of a variant. *)
Definition known_inventory (variant_inventory_map : gmap string string)
    (variant_id : string) : option string :=
  if some_text (variant_inventory_map !! variant_id)
  then variant_inventory_map !! variant_id else None.

Definition has_sku (r : row) : bool := negb (no_sku r).

(** A create-path answer with the one variant a product without options
    has. *)
Definition plain_variants : option payload :=
  Some (DProduct (Some
    {| p_id := "gid://shopify/Product/9";
       p_options := [];
       p_variants := [variant "v9" None "Default Title" (Some "i9") []] |})).

Definition row_small : row :=
  [("handle", Txt "mug"); ("title", Txt "Mug"); ("variant_sku", Txt "MUG-S");
   ("variant_price", Txt "9.00"); ("variant_option1_name", Txt "Size");
   ("variant_option1_value", Txt "small")].

Definition small_batch : batch :=
  {| variants_to_update := [("v1", "9.00")];
     variant_sku_map := {["v1" := (Some "i1", "MUG-S")]} |}.

(** [sep.join(l)] *)
Fixpoint join (sep : string) (l : list string) : string :=
  match l with
  | [] => EmptyString
  | x :: l' =>
      match l' with
      | [] => x
      | _ => x +:+ sep +:+ join sep l'
      end
  end.

(** [c in s] *)
Fixpoint has_char (c : Ascii.ascii) (s : string) : bool :=
  match s with
  | EmptyString => false
  | String c' s' => Ascii.eqb c' c || has_char c s'
  end.

Definition tagged_row : row :=
  [("handle", Txt "mug"); ("title", Txt "Mug"); ("description", NaN);
   ("tags", Txt " summer, sale ,,new"); ("variant_sku", Txt "MUG-S");
   ("variant_price", Txt "9.00")].

(** The variant a [productVariantsBulkCreate] answer reports first. *)
Definition created_variant (h : http_result) : option string :=
  match get_productVariantsBulkCreate (data_of h) with
  | Some r => head (vr_product_variants r)
  | None => None
  end.

(** A remote side that creates the variant asked for and shows no
    inventory record for it yet. *)
Definition variant_creating_remote (_ : list event) (q : request) : http_result :=
  match q with
  | ProductVariantsBulkCreate _ _ _ =>
      Body (plain_envelope (DProductVariantsBulkCreate
              (Some {| vr_product_variants := ["v8"]; vr_user_errors := [] |})))
  | GetVariant id =>
      Body (plain_envelope (DProductVariant (Some (variant id None "Medium" None []))))
  | _ => TransportError
  end.


(** Whether a [productVariantsBulkUpdate] answer confirms a variant. *)
Definition confirmed (h : http_result) : bool :=
  match get_productVariantsBulkUpdate (data_of h) with
  | Some r => negb (is_nil (vr_product_variants r))
  | None => false
  end.

(** * Properties *)

(** ** Text and cells on small inputs *)

Example strip_example :
  Text.strip "  ABC-1  " = "ABC-1" /\ Text.strip "   " = "" /\ Text.strip "a b" = "a b".
Proof. repeat split; reflexivity. Qed.

Example lower_example : Text.lower "Small-XL 2" = "small-xl 2".
Proof. reflexivity. Qed.

Example replace_example :
  Text.replace "metafield_" "" "metafield_custom_brand" = "custom_brand"
  /\ Text.replace "ab" "x" "aabab" = "axx".
Proof. repeat split; reflexivity. Qed.

Example split_max_example :
  Text.split_max "_"%char 2 "a_b_c_d" = ["a"; "b"; "c_d"]
  /\ Text.split_max "_"%char 2 "a__b" = ["a"; ""; "b"]
  /\ Text.split_max "_"%char 2 "" = [""].
Proof. repeat split; reflexivity. Qed.

Example split_strip_example :
  Text.split_strip "summer, sale ,,new" = ["summer"; "sale"; "new"].
Proof. reflexivity. Qed.

Example unique_example :
  Text.unique ["S"; "M"; "S"; "L"; "M"] = ["S"; "M"; "L"].
Proof. reflexivity. Qed.

Example str_example : str (Int 1203) = "1203" /\ str (Int (-5)) = "-5" /\ str NaN = "nan".
Proof. repeat split; reflexivity. Qed.

(** ** The dispatcher *)

(** C6. When the transport succeeds and the body has no [errors] key,
    the dispatcher returns the payload; it has slept 5 seconds just
    before returning exactly when the body reports a budget below 200.
    With a budget of 200 or more, or none reported, nothing follows the
    request. *)
Theorem rate_limit_cooldown :
  forall remote query tr e,
    remote tr query = Body e ->
    env_errors e = false ->
    run_graphql_query remote query tr =
      (Ok (env_data e),
       tr ++ Sent query ::
         match reported_budget e with
         | Some budget => if (budget <? 200)%Z then [Sleep 5] else []
         | None => []
         end).
Proof.
  intros remote query tr e Hr He. unfold run_graphql_query.
  rewrite Hr, He. unfold rate_limit_low, reported_budget, available.
  destruct (env_extensions e) as [x|]; simpl; [|reflexivity].
  destruct (ext_cost x) as [c|]; simpl; [|reflexivity].
  destruct (throttleStatus c) as [t|]; simpl; [|reflexivity].
  destruct (currentlyAvailable t) as [a|]; simpl; [|reflexivity].
  destruct (a <? 200)%Z; reflexivity.
Qed.

Lemma rate_limit_cooldown_witness :
  run_graphql_query low_budget_remote GetPublications [] =
    (Ok (Some (DPublications None)), [Sent GetPublications; Sleep 5]).
Proof.
  exact (rate_limit_cooldown low_budget_remote GetPublications []
           (budget_envelope 150 (DPublications None)) eq_refl eq_refl).
Defined.

(** ** The lookup *)

Lemma scan_variants_default :
  forall has_options count l m d,
    snd (fold_left (scan_variant has_options count) l (m, d)) =
      if has_options then d
      else if (count =? 1)%nat
           then match last l with Some v => Some (v_id v) | None => d end
           else match last (List.filter default_titled l) with
                | Some v => Some (v_id v)
                | None => d
                end.
Proof.
  intros has_options count l. induction l as [|v l IH]; intros m d.
  - simpl. destruct has_options, (count =? 1)%nat; reflexivity.
  - cbn [fold_left]. unfold scan_variant at 2. rewrite IH. clear IH.
    cbn [List.filter]. unfold default_titled at 2.
    destruct has_options, (count =? 1)%nat,
      (String.eqb (v_title v) "Default Title"); simpl;
      rewrite ?last_cons; try reflexivity.
    + destruct (last l); reflexivity.
    + destruct (last l); reflexivity.
    + destruct (last (List.filter default_titled l)); reflexivity.
Qed.

(** C7, as the code has it.  The default variant is absent when the
    product declares an option; otherwise it is the only variant when
    there is exactly one, and else the last variant titled
    "Default Title", absent when no variant carries that title. *)
Theorem default_variant_id_spec :
  forall p,
    default_variant_id_of p =
      if negb (is_nil (p_options p)) then None
      else match p_variants p with
           | [v] => Some (v_id v)
           | l => v_id <$> last (List.filter default_titled l)
           end.
Proof.
  intros p. unfold default_variant_id_of, resolve, scan_variants.
  pose proof (scan_variants_default (0 <? length (p_options p))%nat
                (length (p_variants p)) (p_variants p) ∅ None) as H.
  destruct (fold_left _ _ _) as [m d]. simpl in H. simpl. rewrite H. clear H.
  destruct (p_options p) as [|o os]; simpl; [|reflexivity].
  destruct (p_variants p) as [|v [|v' l]]; simpl; try reflexivity.
Qed.

(** C7 as stated fails: with no option declared and two variants both
    titled "Default Title", the lookup still returns a default variant,
    the second one. *)
Lemma default_variant_id_counterexample :
  ~ (forall p,
       is_Some (default_variant_id_of p) ->
       p_options p = []
       /\ (length (p_variants p) = 1%nat
           \/ length (List.filter default_titled (p_variants p)) = 1%nat)).
Proof.
  intros H.
  destruct (H two_default_titles) as [_ [H1|H1]]; [by eexists|discriminate H1..].
Qed.

Lemma scan_variants_sku :
  forall has_options count l m d k,
    is_Some (fst (fold_left (scan_variant has_options count) l (m, d)) !! k) <->
    is_Some (m !! k)
    \/ exists v s, v ∈ l /\ v_sku v = Some s /\ s <> "" /\ Text.strip s = k.
Proof.
  intros has_options count l. induction l as [|v l IH]; intros m d k.
  - simpl. split; [auto|]. intros [H|(v & s & Hv & _)]; [exact H|].
    by apply elem_of_nil in Hv.
  - cbn [fold_left]. unfold scan_variant at 2. rewrite IH. clear IH.
    split.
    + intros [H|(v' & s & Hv & Hs)].
      * destruct (v_sku v) as [s|] eqn:Hsku; [|auto].
        destruct s as [|c s]; simpl in H; [auto|].
        apply lookup_insert_is_Some' in H as [H|H]; [|auto].
        right. exists v, (String c s). split; [left|]. done.
      * right. exists v', s. split; [by right|done].
    + intros [H|(v' & s & Hv & Hsku & Hne & Hk)].
      * left. destruct (v_sku v) as [s|]; [|done].
        destruct s; simpl; [done|].
        apply lookup_insert_is_Some'. auto.
      * apply elem_of_cons in Hv as [->|Hv].
        -- left. rewrite Hsku. destruct s; [done|]. simpl.
           apply lookup_insert_is_Some'. auto.
        -- right. exists v', s. done.
Qed.

(** C3. A row SKU finds a variant in the fetched index exactly when some
    variant of the product has a non-empty SKU whose trimmed text is the
    trimmed text of the row SKU; letters are compared as they are.  So
    "ABC-1" is found by "  ABC-1  " and not by "abc-1". *)
Theorem sku_match_exact_after_trim :
  (forall p sku,
     is_Some (match_by_sku (variants_by_sku p) sku) <->
     exists v s, v ∈ p_variants p /\ v_sku v = Some s /\ s <> ""
                 /\ Text.strip s = Text.strip (str sku))
  /\ match_by_sku (variants_by_sku abc_product) (Txt "  ABC-1  ") = Some "v1"
  /\ match_by_sku (variants_by_sku abc_product) (Txt "abc-1") = None.
Proof.
  split; [|split; vm_compute; reflexivity].
  intros p sku. unfold match_by_sku, variants_by_sku, resolve, scan_variants.
  pose proof (scan_variants_sku (0 <? length (p_options p))%nat
                (length (p_variants p)) (p_variants p) ∅ None
                (Text.strip (str sku))) as H.
  destruct (fold_left _ _ _) as [m d]. simpl in *. rewrite H.
  rewrite lookup_empty. split.
  - intros [[? ?]|?]; done.
  - auto.
Qed.

(** ** Matching by option value *)

Lemma lower_char_idemp : forall c, Text.lower_char (Text.lower_char c) = Text.lower_char c.
Proof. intros [[] [] [] [] [] [] [] []]; vm_compute; reflexivity. Qed.

Lemma lower_idemp : forall s, Text.lower (Text.lower s) = Text.lower s.
Proof.
  induction s as [|c s IH]; simpl; [reflexivity|].
  by rewrite lower_char_idemp, IH.
Qed.

Lemma index_variant_keeps :
  forall l m i k,
    is_Some (m !! k) -> is_Some (fst (fold_left index_variant l (m, i)) !! k).
Proof.
  induction l as [|v l IH]; intros m i k H; [exact H|].
  cbn [fold_left]. unfold index_variant at 2.
  destruct (v_selected_options v) as [|[n value] rest]; apply IH; [exact H|].
  rewrite !lookup_insert_is_Some'. auto.
Qed.

Lemma index_variant_has :
  forall l m i v w,
    v ∈ l -> first_option_value v = Some w ->
    is_Some (fst (fold_left index_variant l (m, i)) !! Text.lower w).
Proof.
  induction l as [|v0 l IH]; intros m i v w Hv Hw.
  - by apply elem_of_nil in Hv.
  - cbn [fold_left]. apply elem_of_cons in Hv as [<-|Hv].
    + unfold index_variant at 2. unfold first_option_value in Hw.
      destruct (v_selected_options v) as [|[n value] rest]; [discriminate|].
      injection Hw as <-. apply index_variant_keeps.
      rewrite lookup_insert_is_Some'. auto.
    + destruct (index_variant (m, i) v0) as [m' i']. by apply (IH _ _ v).
Qed.

Lemma index_variant_origin :
  forall l m i k id,
    fst (fold_left index_variant l (m, i)) !! k = Some id ->
    m !! k = Some id
    \/ exists v w, v ∈ l /\ first_option_value v = Some w
                   /\ (k = w \/ k = Text.lower w) /\ id = v_id v.
Proof.
  induction l as [|v l IH]; intros m i k id H; [by left|].
  cbn [fold_left] in H. unfold index_variant at 2 in H.
  apply IH in H as [H|(v' & w & Hv & Hw & Hk & Hid)].
  - destruct (v_selected_options v) as [|[n value] rest] eqn:Hsel; [by left|].
    destruct (decide (Text.lower (Text.strip value) = k)) as [<-|Hne1].
    + rewrite lookup_insert_eq in H. injection H as <-.
      right. exists v, (Text.strip value). unfold first_option_value.
      rewrite Hsel. repeat split; [left|auto].
    + rewrite lookup_insert_ne in H by done.
      destruct (decide (Text.strip value = k)) as [<-|Hne2].
      * rewrite lookup_insert_eq in H. injection H as <-.
        right. exists v, (Text.strip value). unfold first_option_value.
        rewrite Hsel. repeat split; [left|auto].
      * rewrite lookup_insert_ne in H by done. by left.
  - right. exists v', w. repeat split; [by right|done..].
Qed.

(** C4. The exact key is tried first and the lower-case key second; as
    the index holds every created value under both keys, a row value that
    equals a created value up to case is matched, and what it is matched
    to is a variant whose trimmed value equals it up to case. *)
Theorem option_value_match_ignores_case :
  forall data product v w value,
    get_product data = Some product ->
    v ∈ p_variants product ->
    first_option_value v = Some w ->
    Text.lower w = Text.lower value ->
    let variants_map := fst (index_variants data) in
    match_by_option_value variants_map value =
      (if some_text (variants_map !! value) then variants_map !! value
       else variants_map !! Text.lower value)
    /\ exists v' w',
         match_by_option_value variants_map value = Some (v_id v')
         /\ v' ∈ p_variants product
         /\ first_option_value v' = Some w'
         /\ Text.lower w' = Text.lower value.
Proof.
  intros data product v w value Hd Hv Hw Hlow. simpl.
  split; [reflexivity|].
  unfold index_variants. rewrite Hd.
  assert (exists id, match_by_option_value
            (fst (fold_left index_variant (p_variants product) (∅, ∅))) value
          = Some id
          /\ (fst (fold_left index_variant (p_variants product) (∅, ∅)) !! value
              = Some id
              \/ fst (fold_left index_variant (p_variants product) (∅, ∅))
                   !! Text.lower value = Some id)) as (id & Hm & Hin).
  { unfold match_by_option_value, or_else.
    destruct (index_variant_has (p_variants product) ∅ ∅ v w Hv Hw) as [id' Hid'].
    rewrite Hlow in Hid'.
    destruct (some_text _) eqn:Hs.
    - destruct (_ !! value) as [id|] eqn:He; [|discriminate]. eauto.
    - eauto. }
  rewrite Hm.
  destruct Hin as [Hin|Hin];
    apply index_variant_origin in Hin as [Hin|(v' & w' & Hv' & Hw' & Hk & ->)];
    try (rewrite lookup_empty in Hin; discriminate);
    exists v', w'; repeat split; try done.
  - destruct Hk as [->| ->]; [done|by rewrite lower_idemp].
  - destruct Hk as [Hk|Hk].
    + by rewrite <- Hk, lower_idemp.
    + apply (f_equal Text.lower) in Hk. by rewrite !lower_idemp in Hk.
Qed.

Lemma option_value_match_ignores_case_witness :
  exists v' w',
    match_by_option_value (fst (index_variants small_variants)) "small"
    = Some (v_id v')
    /\ v' ∈ p_variants small_product
    /\ first_option_value v' = Some w'
    /\ Text.lower w' = Text.lower "small".
Proof.
  exact (proj2 (option_value_match_ignores_case small_variants small_product
                  small_variant "Small" "small" eq_refl
                  (list_elem_of_here small_variant []) eq_refl eq_refl)).
Defined.

Example small_matches_Small :
  match_by_option_value (fst (index_variants small_variants)) (Text.strip " small ")
  = Some "v1".
Proof. vm_compute. reflexivity. Qed.

(** ** Metafields *)

Example metafield_parts_example :
  metafield_parts "metafield_custom_brand_single_line_text_field"
  = Some ("custom", "brand", "single_line_text_field")
  /\ metafield_parts "metafield_custom_brand"
    = Some ("custom", "brand", "single_line_text_field")
  /\ metafield_parts "metafield_custom" = None.
Proof. repeat split; reflexivity. Qed.

(** C8 at a column name in which the prefix occurs again.  The docstring
    gives namespace [my], key [metafield] and type [key]; the code removes
    every occurrence of the prefix and upserts namespace [my], key [key]
    with the default type. *)
Theorem metafield_inner_prefix_removed :
  metafield_parts_documented "metafield_my_metafield_key"
  = Some ("my", "metafield", "key")
  /\ metafield_parts "metafield_my_metafield_key"
    = Some ("my", "key", "single_line_text_field")
  /\ snd (add_metafields_to_product silent_remote "gid://shopify/Product/1"
            [("handle", Txt "mug"); ("metafield_my_metafield_key", Txt "Acme")] [])
    = [Sent (MetafieldsSet "gid://shopify/Product/1" "my" "key" "Acme"
               "single_line_text_field")].
Proof. repeat split; reflexivity. Qed.

(** ** Rows left out of the variant phase *)








(** ** What a call adds to the events *)

Lemma run_graphql_query_eq :
  forall remote query tr,
    run_graphql_query remote query tr =
      (Ok (data_of (remote tr query)),
       tr ++ Sent query :: cooldown_of (remote tr query)).
Proof.
  intros. unfold run_graphql_query, data_of, cooldown_of.
  destruct (remote tr query) as [|e]; [reflexivity|].
  destruct (env_errors e); [reflexivity|].
  destruct (rate_limit_low e); reflexivity.
Qed.

Lemma requests_of_app :
  forall a b, requests_of (a ++ b) = requests_of a ++ requests_of b.
Proof. intros. unfold requests_of. apply omap_app. Qed.

Lemma requests_of_cooldown : forall h, requests_of (cooldown_of h) = [].
Proof.
  intros [|e]; simpl; [reflexivity|].
  destruct (env_errors e), (rate_limit_low e); reflexivity.
Qed.

Lemma requests_of_sent :
  forall query h, requests_of (Sent query :: cooldown_of h) = [query].
Proof.
  intros. change (Sent query :: cooldown_of h) with ([Sent query] ++ cooldown_of h).
  by rewrite requests_of_app, requests_of_cooldown.
Qed.

Lemma update_variant_sku_individual_events :
  forall remote inventory_item_id sku tr,
    exists ok ev,
      update_variant_sku_individual remote inventory_item_id sku tr
      = (Ok ok, tr ++ ev)
      /\ requests_of ev =
         if Text.nonempty inventory_item_id
         then [InventoryItemUpdate inventory_item_id sku] else [].
Proof.
  intros. unfold update_variant_sku_individual.
  destruct (Text.nonempty inventory_item_id); simpl.
  - unfold run_bind. rewrite run_graphql_query_eq.
    destruct (get_inventoryItemUpdate _); eexists _, _;
      (split; [reflexivity|apply requests_of_sent]).
  - exists false, []. by rewrite app_nil_r.
Qed.

Lemma update_variant_sku_events :
  forall remote variant_id sku tr,
    exists ok ev l,
      update_variant_sku remote variant_id sku tr = (Ok ok, tr ++ ev)
      /\ requests_of ev = GetVariant variant_id :: l
      /\ (l = [] \/ exists inv, l = [InventoryItemUpdate inv sku])
      /\ (confirming remote -> exists inv, l = [InventoryItemUpdate inv sku]).
Proof.
  intros. unfold update_variant_sku, run_bind. rewrite run_graphql_query_eq.
  set (h := remote tr (GetVariant variant_id)).
  destruct (get_productVariant (data_of h)) as [v|] eqn:Hv.
  - destruct (v_inventory_item v) as [inv|] eqn:Hinv.
    + destruct (update_variant_sku_individual_events remote inv sku
                  (tr ++ Sent (GetVariant variant_id) :: cooldown_of h))
        as (ok & ev & -> & Hev).
      exists ok, ((Sent (GetVariant variant_id) :: cooldown_of h) ++ ev),
        (requests_of ev).
      rewrite app_assoc. split; [reflexivity|].
      rewrite requests_of_app, requests_of_sent. split; [reflexivity|].
      rewrite Hev. split.
      * destruct (Text.nonempty inv); eauto.
      * intros Hc. specialize (Hc tr (GetVariant variant_id)).
        destruct Hc as (v' & inv' & Hd & Hi & Hne). fold h in Hd.
        rewrite Hd in Hv. injection Hv as <-. rewrite Hi in Hinv.
        injection Hinv as <-. destruct inv'; [done|]. eauto.
    + exists false, (Sent (GetVariant variant_id) :: cooldown_of h), [].
      rewrite requests_of_sent. repeat split; auto.
      intros Hc. specialize (Hc tr (GetVariant variant_id)).
      destruct Hc as (v' & inv' & Hd & Hi & Hne). fold h in Hd.
      rewrite Hd in Hv. injection Hv as <-. congruence.
  - exists false, (Sent (GetVariant variant_id) :: cooldown_of h), [].
    rewrite requests_of_sent. repeat split; auto.
    intros Hc. specialize (Hc tr (GetVariant variant_id)).
    destruct Hc as (v' & inv' & Hd & Hi & Hne). fold h in Hd.
    rewrite Hd in Hv. discriminate.
Qed.


(** ** The default variant on the update path *)







Lemma sync_variants_without_option :
  forall remote product_id main_row group_df existing_variants default_variant_id
         option_name tr,
    option_name_of main_row = Ok option_name ->
    some_text option_name = false ->
    sync_variants remote product_id main_row group_df existing_variants
      default_variant_id tr
    = for_each (sync_row remote product_id option_name existing_variants
                  default_variant_id) group_df tr.
Proof.
  intros remote product_id main_row group_df existing_variants default_variant_id
         option_name tr Hname Hno.
  unfold sync_variants, run_bind, lift. rewrite Hname, Hno. reflexivity.
Qed.

Lemma confirming_remote_confirms : confirming confirming_remote.
Proof.
  intros tr q. destruct q; try exact I; simpl.
  - eexists _, _. repeat split. discriminate.
  - eexists. split; [reflexivity|discriminate].
Qed.


Example default_variant_run :
  for_each (sync_row confirming_remote "gid://shopify/Product/7" None ∅
              (Some "v7")) [row_a; row_b] []
  = (Ok tt,
     [Sent (ProductVariantsBulkUpdate None [("v7", "9.00")]);
      Sent (GetVariant "v7");
      Sent (InventoryItemUpdate "i1" "MUG-A");
      Sent (ProductVariantsBulkUpdate None [("v7", "12.50")]);
      Sent (GetVariant "v7");
      Sent (InventoryItemUpdate "i1" "MUG-B")]).
Proof. vm_compute. reflexivity. Qed.

(** ** Failures at the head of a group *)

(** C1. When the lookup finds no product and the creation of the shell
    yields no result or no product, the group sends the lookup and the
    creation and nothing else, and the run goes on with the remaining
    groups from there. *)
Theorem failed_creation_skips_group :
  forall remote local_file handle group_df rest main_row tr
         existing_variants existing_options default_variant_id tr1
         input data tr2,
    iloc0 group_df = Ok main_row ->
    check_product_exists remote handle tr
    = (Ok (None, existing_variants, existing_options, default_variant_id), tr1) ->
    product_input_of None main_row = Ok input ->
    run_graphql_query remote (ProductCreate input) tr1 = (Ok data, tr2) ->
    (get_productCreate data ≫= pr_product) = None ->
    create_product_with_variants remote local_file group_df tr1 = (Ok None, tr2)
    /\ process_group remote local_file (handle, group_df) tr = (Ok tt, tr2)
    /\ requests_of tr2
       = requests_of tr ++ [ProductByHandle handle; ProductCreate input]
    /\ process_groups remote local_file ((handle, group_df) :: rest) tr
       = process_groups remote local_file rest tr2.
Proof.
  intros remote local_file handle group_df rest main_row tr
         existing_variants existing_options default_variant_id tr1
         input data tr2 Hrow Hlook Hin Hrun Hfail.
  assert (create_product_with_variants remote local_file group_df tr1
          = (Ok None, tr2)) as Hcreate.
  { unfold create_product_with_variants, run_bind, lift.
    rewrite Hrow, Hin, Hrun, Hfail. reflexivity. }
  assert (process_group remote local_file (handle, group_df) tr = (Ok tt, tr2))
    as Hgroup.
  { unfold process_group, run_bind, lift. rewrite Hrow, Hlook. simpl.
    unfold run_bind. rewrite Hcreate. reflexivity. }
  repeat split; try done.
  - unfold check_product_exists, run_bind in Hlook.
    rewrite run_graphql_query_eq in Hlook, Hrun.
    injection Hrun as _ <-.
    assert (tr1 = tr ++ Sent (ProductByHandle handle)
                       :: cooldown_of (remote tr (ProductByHandle handle))) as ->.
    { destruct (get_productByHandle _); by injection Hlook. }
    rewrite !requests_of_app, !requests_of_sent, <- app_assoc. reflexivity.
  - unfold process_groups. cbn [for_each]. unfold run_bind at 1. by rewrite Hgroup.
Qed.

Lemma failed_creation_skips_group_witness :
  process_groups empty_shop no_files [(Txt "mug", [mug_row]); (Txt "cup", [row_a])] []
  = process_groups empty_shop no_files [(Txt "cup", [row_a])]
      [Sent (ProductByHandle (Txt "mug")); Sent (ProductCreate (mug_input None))].
Proof.
  exact (proj2 (proj2 (proj2
    (failed_creation_skips_group empty_shop no_files (Txt "mug") [mug_row]
       [(Txt "cup", [row_a])] mug_row [] ∅ [] None
       [Sent (ProductByHandle (Txt "mug"))] (mug_input None)
       (Some (DProductCreate
                (Some {| pr_product := None;
                         pr_user_errors := ["Title is too long"] |})))
       [Sent (ProductByHandle (Txt "mug")); Sent (ProductCreate (mug_input None))]
       eq_refl eq_refl eq_refl eq_refl eq_refl)))).
Defined.

(** C2, as the code has it.  When the core update reports no product,
    [update_product] has sent that one mutation only, so images and
    metafields are skipped; [main] then goes on with the option and the
    rows of the group, exactly as after an update that succeeded. *)
Theorem failed_core_update_skips_assets_only :
  forall remote local_file handle group_df main_row tr product_id
         existing_variants existing_options default_variant_id tr1
         input data tr2,
    iloc0 group_df = Ok main_row ->
    check_product_exists remote handle tr
    = (Ok (Some product_id, existing_variants, existing_options,
           default_variant_id), tr1) ->
    product_input_of (Some product_id) main_row = Ok input ->
    run_graphql_query remote (ProductUpdate input) tr1 = (Ok data, tr2) ->
    (get_productUpdate data ≫= pr_product) = None ->
    update_product remote local_file product_id main_row tr1 = (Ok tt, tr2)
    /\ requests_of tr2 = requests_of tr1 ++ [ProductUpdate input]
    /\ process_group remote local_file (handle, group_df) tr
       = sync_variants remote product_id main_row group_df existing_variants
           default_variant_id tr2.
Proof.
  intros remote local_file handle group_df main_row tr product_id
         existing_variants existing_options default_variant_id tr1
         input data tr2 Hrow Hlook Hin Hrun Hfail.
  assert (update_product remote local_file product_id main_row tr1 = (Ok tt, tr2))
    as Hupd.
  { unfold update_product, run_bind, lift. rewrite Hin, Hrun, Hfail. reflexivity. }
  repeat split; try done.
  - rewrite run_graphql_query_eq in Hrun. injection Hrun as _ <-.
    by rewrite requests_of_app, requests_of_sent.
  - unfold process_group, run_bind, lift. rewrite Hrow, Hlook. simpl.
    unfold run_bind. rewrite Hupd. reflexivity.
Qed.

Lemma failed_core_update_skips_assets_only_witness :
  process_group rejecting_remote no_files (Txt "mug", [mug_row]) []
  = sync_variants rejecting_remote "gid://shopify/Product/7" mug_row [mug_row]
      {["MUG-S" := "v7"]} (Some "v7")
      [Sent (ProductByHandle (Txt "mug"));
       Sent (ProductUpdate (mug_input (Some "gid://shopify/Product/7")))].
Proof.
  exact (proj2 (proj2
    (failed_core_update_skips_assets_only rejecting_remote no_files (Txt "mug")
       [mug_row] mug_row [] "gid://shopify/Product/7"
       {["MUG-S" := "v7"]} [] (Some "v7")
       [Sent (ProductByHandle (Txt "mug"))]
       (mug_input (Some "gid://shopify/Product/7"))
       (Some (DProductUpdate
                (Some {| pr_product := None;
                         pr_user_errors := ["Title is too long"] |})))
       [Sent (ProductByHandle (Txt "mug"));
        Sent (ProductUpdate (mug_input (Some "gid://shopify/Product/7")))]
       eq_refl eq_refl eq_refl eq_refl eq_refl))).
Defined.

Example rejected_update_run :
  main rejecting_remote no_files mug_df
  = [Sent (ProductByHandle (Txt "mug"));
     Sent (ProductUpdate (mug_input (Some "gid://shopify/Product/7")));
     Sent (GetProduct "gid://shopify/Product/7");
     Sent (ProductOptionsCreate "gid://shopify/Product/7" "Size" ["Small"]);
     Sent (ProductVariantsBulkUpdate None [("v7", "9.00")])].
Proof. vm_compute. reflexivity. Qed.

(** C2 as stated fails: after a core update that reports no product the
    group is not over; [rejecting_remote] rejects the update of the mug
    and the option and the row of the group are still sent. *)
Lemma failed_core_update_counterexample :
  ~ (forall remote local_file handle group_df main_row tr product_id
            existing_variants existing_options default_variant_id tr1
            input data tr2,
       iloc0 group_df = Ok main_row ->
       check_product_exists remote handle tr
       = (Ok (Some product_id, existing_variants, existing_options,
              default_variant_id), tr1) ->
       product_input_of (Some product_id) main_row = Ok input ->
       run_graphql_query remote (ProductUpdate input) tr1 = (Ok data, tr2) ->
       (get_productUpdate data ≫= pr_product) = None ->
       process_group remote local_file (handle, group_df) tr = (Ok tt, tr2)).
Proof.
  intros H.
  specialize (H rejecting_remote no_files (Txt "mug") [mug_row] mug_row []
                "gid://shopify/Product/7" {["MUG-S" := "v7"]} [] (Some "v7")
                [Sent (ProductByHandle (Txt "mug"))]
                (mug_input (Some "gid://shopify/Product/7"))
                (Some (DProductUpdate
                         (Some {| pr_product := None;
                                  pr_user_errors := ["Title is too long"] |})))
                [Sent (ProductByHandle (Txt "mug"));
                 Sent (ProductUpdate (mug_input (Some "gid://shopify/Product/7")))]
                eq_refl eq_refl eq_refl eq_refl eq_refl).
  vm_compute in H. discriminate H.
Qed.

(** * Further properties *)

(** ** Runs that raise nothing *)

Lemma sends_ret : forall ok {A} (a : A), sends ok (run_ret a).
Proof.
  intros ok A a tr. exists a, []. rewrite app_nil_r. split; [reflexivity|constructor].
Qed.

Lemma sends_bind :
  forall ok {A B} (m : run A) (f : A -> run B),
    sends ok m -> (forall a, sends ok (f a)) -> sends ok (run_bind m f).
Proof.
  intros ok A B m f Hm Hf tr. unfold run_bind.
  destruct (Hm tr) as (a & ev1 & -> & H1).
  destruct (Hf a (tr ++ ev1)) as (b & ev2 & -> & H2).
  exists b, (ev1 ++ ev2). rewrite app_assoc. split; [reflexivity|].
  rewrite requests_of_app. by apply Forall_app.
Qed.


Lemma sends_emit : forall ok seconds, sends ok (emit (Sleep seconds)).
Proof.
  intros ok seconds tr. exists tt, [Sleep seconds]. split; [reflexivity|constructor].
Qed.

Lemma sends_when : forall ok b m, sends ok m -> sends ok (when b m).
Proof. intros ok [] m H; [exact H|apply sends_ret]. Qed.

Lemma sends_for_each :
  forall ok {A} (body : A -> run unit) l,
    (forall x, x ∈ l -> sends ok (body x)) -> sends ok (for_each body l).
Proof.
  intros ok A body l. induction l as [|x l IH]; intros H; [apply sends_ret|].
  simpl. apply sends_bind.
  - apply H. left.
  - intros _. apply IH. intros y Hy. apply H. by right.
Qed.

Lemma sends_query :
  forall ok remote query, ok query = true -> sends ok (run_graphql_query remote query).
Proof.
  intros ok remote query H tr. rewrite run_graphql_query_eq.
  eexists _, _. split; [reflexivity|]. rewrite requests_of_sent. by constructor.
Qed.

Lemma sends_mono :
  forall (ok ok' : request -> bool) {A} (m : run A),
    (forall q, ok q = true -> ok' q = true) -> sends ok m -> sends ok' m.
Proof.
  intros ok ok' A m Himp H tr. destruct (H tr) as (a & ev & Hrun & Hall).
  exists a, ev. split; [exact Hrun|]. eapply Forall_impl; [exact Hall|]. exact Himp.
Qed.

(** ** The dispatcher on a failure *)

(** X1. A transport error, or a body that has the key [errors], gives
    the caller nothing: the request has been sent once, and there is no
    sleep, whatever budget the body reports. *)
Theorem dispatcher_failure_gives_nothing :
  forall remote query tr,
    (remote tr query = TransportError
     \/ exists e, remote tr query = Body e /\ env_errors e = true) ->
    run_graphql_query remote query tr = (Ok None, tr ++ [Sent query]).
Proof.
  intros remote query tr [H|(e & H & He)]; unfold run_graphql_query; rewrite H.
  - reflexivity.
  - by rewrite He.
Qed.

(** ** Trimming *)

Lemma rstrip_idemp : forall s, Text.rstrip (Text.rstrip s) = Text.rstrip s.
Proof.
  induction s as [|c s IH]; [reflexivity|]. simpl.
  destruct (Text.rstrip s) as [|c' t] eqn:Hs.
  - destruct (Text.is_space c) eqn:Hc; [reflexivity|]. simpl. by rewrite Hc.
  - change (Text.rstrip (String c (String c' t)))
      with (match Text.rstrip (String c' t) with
            | EmptyString => if Text.is_space c then EmptyString else String c EmptyString
            | t0 => String c t0
            end).
    by rewrite IH.
Qed.

Lemma lstrip_head :
  forall s, Text.lstrip s = EmptyString
            \/ exists c t, Text.lstrip s = String c t /\ Text.is_space c = false.
Proof.
  induction s as [|c s IH]; [by left|]. simpl.
  destruct (Text.is_space c) eqn:Hc; [exact IH|]. right. by exists c, s.
Qed.

Lemma rstrip_head :
  forall c s, Text.is_space c = false -> exists t, Text.rstrip (String c s) = String c t.
Proof.
  intros c s Hc. simpl. destruct (Text.rstrip s); rewrite ?Hc; eauto.
Qed.

Lemma strip_head :
  forall s, Text.strip s = EmptyString
            \/ exists c t, Text.strip s = String c t /\ Text.is_space c = false.
Proof.
  intros s. unfold Text.strip.
  destruct (lstrip_head s) as [->|(c & t & -> & Hc)]; [by left|].
  destruct (rstrip_head c t Hc) as [t' ->]. right. by exists c, t'.
Qed.

Lemma strip_idemp : forall s, Text.strip (Text.strip s) = Text.strip s.
Proof.
  intros s. destruct (strip_head s) as [H|(c & t & H & Hc)].
  - by rewrite H.
  - unfold Text.strip at 1. rewrite H. simpl Text.lstrip. rewrite Hc.
    rewrite <- H. unfold Text.strip. apply rstrip_idemp.
Qed.

Lemma split_strip_trimmed :
  forall s t, t ∈ Text.split_strip s -> Text.nonempty t = true /\ Text.strip t = t.
Proof.
  intros s t H. unfold Text.split_strip in H.
  apply list_elem_of_In, filter_In in H as [H Hne]. split; [exact Hne|].
  apply in_map_iff in H as (p & <- & _). apply strip_idemp.
Qed.

Lemma dispatcher_failure_gives_nothing_witness :
  run_graphql_query erring_remote GetPublications [] = (Ok None, [Sent GetPublications]).
Proof.
  apply (dispatcher_failure_gives_nothing erring_remote GetPublications []).
  right. eexists. split; reflexivity.
Defined.

(** ** Images *)

Lemma is_url_nonempty : forall p, is_url p = true -> Text.nonempty p = true.
Proof. intros [|c p] H; [discriminate H|reflexivity]. Qed.

Lemma upload_image_events :
  forall remote local_file p tr,
    exists r ev,
      upload_image_to_shopify remote local_file p tr = (Ok r, tr ++ ev)
      /\ requests_of ev
         = (if uploaded local_file p then [FileCreate (Text.strip p)] else [])
      /\ (is_url (Text.strip p) = true -> r = Some (Text.strip p))
      /\ (uploaded local_file p = false -> some_text r = true ->
          is_url (Text.strip p) = true).
Proof.
  intros remote local_file p tr. unfold upload_image_to_shopify, uploaded.
  destruct (Text.nonempty p) eqn:Hp; simpl.
  - fold (is_url (Text.strip p)). destruct (is_url (Text.strip p)) eqn:Hu; simpl.
    + exists (Some (Text.strip p)), []. rewrite app_nil_r. auto.
    + destruct (local_file (Text.strip p)); simpl.
      * unfold run_bind. rewrite run_graphql_query_eq.
        destruct (get_fileCreate _) as [r|].
        -- destruct (negb (is_nil (fr_user_errors r))).
           ++ eexists None, _. split; [reflexivity|]. rewrite requests_of_sent.
              repeat split; discriminate.
           ++ destruct (fr_files r) as [|[image_id|] files];
                eexists _, _; (split; [reflexivity|]); rewrite requests_of_sent;
                repeat split; discriminate.
        -- eexists None, _. split; [reflexivity|]. rewrite requests_of_sent.
           repeat split; discriminate.
      * exists None, []. rewrite app_nil_r. repeat split; discriminate.
  - exists None, []. rewrite app_nil_r. repeat split; try discriminate.
    destruct p; [|discriminate Hp]. discriminate.
Qed.

Lemma upload_all_events :
  forall remote local_file paths tr,
    exists ids ev,
      upload_all remote local_file paths tr = (Ok ids, tr ++ ev)
      /\ requests_of ev
         = (fun p => FileCreate (Text.strip p)) <$> List.filter (uploaded local_file) paths
      /\ Forall (fun i => Text.nonempty i = true) ids
      /\ (forall p, p ∈ paths -> is_url (Text.strip p) = true -> Text.strip p ∈ ids)
      /\ (Forall (fun p => uploaded local_file p = false) paths ->
          ids = Text.strip <$> List.filter (fun p => is_url (Text.strip p)) paths).
Proof.
  intros remote local_file paths. induction paths as [|p paths IH]; intros tr.
  - exists [], []. simpl. unfold run_ret. rewrite app_nil_r.
    repeat split; try constructor. intros p Hp. by apply elem_of_nil in Hp.
  - cbn [upload_all]. unfold run_bind.
    destruct (upload_image_events remote local_file p tr)
      as (r & ev1 & -> & Hreq1 & Hurl & Hnone).
    destruct (IH (tr ++ ev1)) as (ids & ev2 & -> & Hreq2 & Hne & Hin & Hex).
    unfold run_ret.
    exists (if some_text r then default "" r :: ids else ids), (ev1 ++ ev2).
    rewrite app_assoc. split; [reflexivity|].
    split; [|split; [|split]].
    + rewrite requests_of_app, Hreq1, Hreq2. cbn [List.filter].
      destruct (uploaded local_file p); reflexivity.
    + destruct r as [[|c i]|]; simpl; try exact Hne. by constructor.
    + intros p' Hp' Hu. apply elem_of_cons in Hp' as [->|Hp'].
      * rewrite (Hurl Hu). simpl. rewrite (is_url_nonempty _ Hu). left.
      * specialize (Hin p' Hp' Hu). destruct (some_text r); [by right|done].
    + intros Hall. apply Forall_cons in Hall as [Hp Hall].
      rewrite (Hex Hall). cbn [List.filter].
      destruct (is_url (Text.strip p)) eqn:Hu.
      * rewrite (Hurl eq_refl). simpl. by rewrite (is_url_nonempty _ Hu).
      * destruct (some_text r) eqn:Hr; [|reflexivity].
        specialize (Hnone Hp eq_refl). discriminate Hnone.
Qed.

(** X2. Attaching images raises nothing.  It sends one upload for each
    path that is not a URL and names a local file, in order, and then at
    most one attach call, which carries the references that resolved;
    there is none when no reference resolved.  Every URL among the paths
    is among the references, and they are the URLs alone, in order, when
    nothing is uploaded. *)
Theorem images_requests :
  forall remote local_file product_id image_paths tr,
    exists ev image_ids,
      add_images_to_product remote local_file product_id image_paths tr
      = (Ok tt, tr ++ ev)
      /\ requests_of ev
         = ((fun p => FileCreate (Text.strip p))
              <$> List.filter (uploaded local_file) (image_paths_of image_paths))
           ++ (if is_nil image_ids then []
               else [ProductImages product_id image_ids])
      /\ Forall (fun i => Text.nonempty i = true) image_ids
      /\ (forall p, p ∈ image_paths_of image_paths ->
                    is_url (Text.strip p) = true -> Text.strip p ∈ image_ids)
      /\ (Forall (fun p => uploaded local_file p = false)
            (image_paths_of image_paths) ->
          image_ids
          = Text.strip <$> List.filter (fun p => is_url (Text.strip p))
                             (image_paths_of image_paths)).
Proof.
  intros remote local_file product_id image_paths tr.
  unfold add_images_to_product, image_paths_of.
  destruct (negb (truthy image_paths) || isna image_paths).
  { exists [], []. unfold run_ret. rewrite app_nil_r.
    repeat split; try constructor. intros p Hp. by apply elem_of_nil in Hp. }
  set (paths := match image_paths with
                | Txt s => Text.split_strip s
                | _ => [str image_paths]
                end).
  destruct (is_nil paths) eqn:Hnil.
  { destruct paths; [|discriminate Hnil].
    exists [], []. unfold run_ret. rewrite app_nil_r.
    repeat split; try constructor. intros p Hp. by apply elem_of_nil in Hp. }
  unfold run_bind.
  destruct (upload_all_events remote local_file paths tr)
    as (ids & ev & -> & Hreq & Hne & Hin & Hex).
  destruct (is_nil ids) eqn:Hids.
  - exists ev, ids. unfold run_ret. rewrite Hids, app_nil_r. auto.
  - rewrite run_graphql_query_eq. unfold run_ret.
    eexists (ev ++ _), ids. rewrite app_assoc. split; [reflexivity|].
    rewrite requests_of_app, requests_of_sent, Hreq, Hids. auto.
Qed.

(** ** Metafields *)

Lemma add_metafield_events :
  forall remote product_id field tr,
    String.prefix "metafield_" (fst field) = true ->
    exists ev,
      add_metafield remote product_id field tr = (Ok tt, tr ++ ev)
      /\ requests_of ev
         = match metafield_request product_id field with
           | Some q => [q]
           | None => []
           end.
Proof.
  intros remote product_id [col value] tr Hcol.
  unfold add_metafield, metafield_request. simpl in *. rewrite Hcol. simpl.
  destruct (blank value); simpl.
  - exists []. unfold run_ret. by rewrite app_nil_r.
  - destruct (metafield_parts col) as [[[namespace key] type_name]|].
    + unfold run_bind, create_metafield, run_bind. rewrite run_graphql_query_eq.
      destruct (get_metafieldsSet _); eexists; (split; [reflexivity|]);
        apply requests_of_sent.
    + exists []. unfold run_ret. by rewrite app_nil_r.
Qed.

(** X3. Upserting the metafields of a row raises nothing and sends, in
    column order, exactly one upsert for each column whose name starts
    with [metafield_], whose value is not blank and whose name gives a
    namespace and a key; no other column sends anything. *)
Theorem metafields_requests :
  forall remote product_id (row_data : row) tr,
    exists ev,
      add_metafields_to_product remote product_id row_data tr = (Ok tt, tr ++ ev)
      /\ requests_of ev = omap (metafield_request product_id) row_data.
Proof.
  intros remote product_id row_data. unfold add_metafields_to_product.
  induction row_data as [|field row_data IH]; intros tr.
  - exists []. simpl. unfold run_ret. by rewrite app_nil_r.
  - cbn [List.filter].
    destruct (String.prefix "metafield_" (fst field)) eqn:Hcol.
    + cbn [for_each]. unfold run_bind.
      destruct (add_metafield_events remote product_id field tr Hcol)
        as (ev1 & -> & Hreq1).
      destruct (IH (tr ++ ev1)) as (ev2 & -> & Hreq2).
      exists (ev1 ++ ev2). rewrite app_assoc. split; [reflexivity|].
      rewrite requests_of_app, Hreq1, Hreq2. cbn [omap list_omap].
      destruct (metafield_request product_id field); reflexivity.
    + destruct (IH tr) as (ev & -> & Hreq). exists ev. split; [reflexivity|].
      rewrite Hreq. cbn [omap list_omap]. unfold metafield_request at 2.
      by rewrite Hcol.
Qed.

(** ** The SKU index *)

Lemma scan_variants_lookup :
  forall has_options count l m d k,
    fst (fold_left (scan_variant has_options count) l (m, d)) !! k
    = match last (List.filter (sku_key_is k) l) with
      | Some v => Some (v_id v)
      | None => m !! k
      end.
Proof.
  intros has_options count l. induction l as [|v l IH]; intros m d k; [reflexivity|].
  cbn [fold_left List.filter]. unfold scan_variant at 2. rewrite IH. clear IH.
  unfold sku_key_is at 2.
  destruct (v_sku v) as [sku|]; [|reflexivity].
  destruct (Text.nonempty sku); simpl; [|reflexivity].
  destruct (String.eqb_spec (Text.strip sku) k) as [<-|Hne].
  - rewrite last_cons. destruct (last _); [reflexivity|apply lookup_insert_eq].
  - destruct (last _); [reflexivity|by apply lookup_insert_ne].
Qed.

(** X4. The SKU index of the lookup maps a key to the last variant whose
    non-empty SKU trims to that key, so of two variants with the same
    SKU the later one is found; every key of the index is trimmed, and a
    row SKU finds the same variant trimmed or not. *)
Theorem sku_index_last_wins :
  forall p,
    (forall k,
       variants_by_sku p !! k
       = v_id <$> last (List.filter (sku_key_is k) (p_variants p)))
    /\ (forall k, is_Some (variants_by_sku p !! k) -> Text.strip k = k)
    /\ (forall sku,
          match_by_sku (variants_by_sku p) (Txt (Text.strip sku))
          = match_by_sku (variants_by_sku p) (Txt sku)).
Proof.
  intros p.
  assert (forall k,
             variants_by_sku p !! k
             = v_id <$> last (List.filter (sku_key_is k) (p_variants p))) as Hk.
  { intros k. unfold variants_by_sku, resolve, scan_variants.
    pose proof (scan_variants_lookup (0 <? length (p_options p))%nat
                  (length (p_variants p)) (p_variants p) ∅ None k) as H.
    destruct (fold_left _ _ _) as [m d]. simpl in *. rewrite H.
    destruct (last _); [reflexivity|apply lookup_empty]. }
  split; [exact Hk|]. split.
  - intros k [id Hid]. rewrite Hk in Hid.
    destruct (last _) as [v|] eqn:Hlast; [|discriminate].
    apply last_Some in Hlast as [l' Hl'].
    assert (In v (List.filter (sku_key_is k) (p_variants p))) as Hin.
    { rewrite Hl'. apply in_or_app. right. by left. }
    apply filter_In in Hin as [_ Hv]. unfold sku_key_is in Hv.
    destruct (v_sku v) as [sku|]; [|discriminate].
    apply andb_true_iff in Hv as [_ Hv]. apply String.eqb_eq in Hv as <-.
    apply strip_idemp.
  - intros sku. unfold match_by_sku. simpl. by rewrite strip_idemp.
Qed.

(** ** The readiness poll *)

Lemma pause_cooldown : forall h, List.filter is_pause (cooldown_of h) = [].
Proof.
  intros [|e]; simpl; [reflexivity|].
  destruct (env_errors e), (rate_limit_low e); reflexivity.
Qed.

Lemma poll_attempt :
  forall remote product_id attempt rest last tr,
    let h := remote tr (GetProductVariants product_id) in
    let tr1 := tr ++ Sent (GetProductVariants product_id) :: cooldown_of h in
    poll remote product_id (attempt :: rest) last tr
    = if has_inventory_items (data_of h) then (Ok (data_of h), tr1)
      else poll remote product_id rest (data_of h)
             (if (attempt <? 2)%nat then tr1 ++ [Sleep 2] else tr1).
Proof.
  intros. cbn [poll]. unfold run_bind at 1. rewrite run_graphql_query_eq.
  fold h tr1. destruct (has_inventory_items (data_of h)); [reflexivity|].
  unfold run_bind, when. destruct (attempt <? 2)%nat; reflexivity.
Qed.

(** X5. The readiness poll raises nothing and is bounded: it asks for the
    variants one to three times and pauses 2 seconds between two
    questions, never after the last.  It stops early only on an answer
    that shows an inventory record, and returns the last answer it got. *)
Theorem poll_is_bounded :
  forall remote product_id tr,
    exists data ev n,
      poll remote product_id [0; 1; 2]%nat None tr = (Ok data, tr ++ ev)
      /\ requests_of ev = replicate n (GetProductVariants product_id)
      /\ (1 <= n <= 3)%nat
      /\ length (List.filter is_pause ev) = (n - 1)%nat
      /\ (n < 3 -> has_inventory_items data = true)%nat
      /\ (exists ev', ev = ev' ++ Sent (GetProductVariants product_id)
                               :: cooldown_of (remote (tr ++ ev')
                                                 (GetProductVariants product_id))
                      /\ data = data_of (remote (tr ++ ev')
                                           (GetProductVariants product_id))).
Proof.
  intros remote product_id tr.
  set (q := GetProductVariants product_id).
  rewrite poll_attempt. fold q. set (h1 := remote tr q).
  destruct (has_inventory_items (data_of h1)) eqn:H1.
  { exists (data_of h1), (Sent q :: cooldown_of h1), 1%nat.
    split; [reflexivity|]. rewrite requests_of_sent. cbn [List.filter is_pause].
    rewrite pause_cooldown. repeat split; try done; try lia.
    exists []. by rewrite app_nil_r. }
  change (0 <? 2)%nat with true. cbv iota.
  rewrite poll_attempt. fold q.
  set (tr2 := (tr ++ Sent q :: cooldown_of h1) ++ [Sleep 2]).
  set (h2 := remote tr2 q).
  destruct (has_inventory_items (data_of h2)) eqn:H2.
  { exists (data_of h2),
      ((Sent q :: cooldown_of h1) ++ [Sleep 2] ++ Sent q :: cooldown_of h2), 2%nat.
    split; [unfold tr2; by rewrite <- !app_assoc|].
    rewrite !requests_of_app, !requests_of_sent. rewrite !List.filter_app.
    cbn [List.filter is_pause]. rewrite !pause_cooldown.
    repeat split; try done; try lia.
    exists ((Sent q :: cooldown_of h1) ++ [Sleep 2]).
    assert (tr ++ (Sent q :: cooldown_of h1) ++ [Sleep 2] = tr2) as ->
        by (unfold tr2; by rewrite app_assoc).
    fold h2. split; [by rewrite <- app_assoc|done]. }
  change (1 <? 2)%nat with true. cbv iota.
  rewrite poll_attempt. fold q.
  set (tr3 := (tr2 ++ Sent q :: cooldown_of h2) ++ [Sleep 2]).
  set (h3 := remote tr3 q).
  change (2 <? 2)%nat with false. cbv iota.
  assert (tr3 ++ Sent q :: cooldown_of h3
          = tr ++ ((Sent q :: cooldown_of h1) ++ [Sleep 2]
                   ++ (Sent q :: cooldown_of h2) ++ [Sleep 2])
               ++ Sent q :: cooldown_of h3) as Htr.
  { unfold tr3, tr2. by rewrite <- !app_assoc. }
  assert (tr3 = tr ++ (Sent q :: cooldown_of h1) ++ [Sleep 2]
                   ++ (Sent q :: cooldown_of h2) ++ [Sleep 2]) as Htr3.
  { unfold tr3, tr2. by rewrite <- !app_assoc. }
  exists (data_of h3),
    (((Sent q :: cooldown_of h1) ++ [Sleep 2]
      ++ (Sent q :: cooldown_of h2) ++ [Sleep 2]) ++ Sent q :: cooldown_of h3),
    3%nat.
  split.
  { destruct (has_inventory_items (data_of h3)); cbn [poll]; unfold run_ret;
      by rewrite Htr. }
  rewrite !requests_of_app, !requests_of_sent. rewrite !List.filter_app.
  cbn [List.filter is_pause]. rewrite !pause_cooldown.
  repeat split; try done; try lia.
  exists ((Sent q :: cooldown_of h1) ++ [Sleep 2]
          ++ (Sent q :: cooldown_of h2) ++ [Sleep 2]).
  rewrite <- Htr3. by fold h3.
Qed.

(** ** Distinct option values *)

Lemma elem_of_unique : forall l x, x ∈ Text.unique l <-> x ∈ l.
Proof.
  induction l as [|y l IH]; intros x; [reflexivity|]. simpl.
  rewrite !elem_of_cons, list_elem_of_In, filter_In, <- list_elem_of_In, IH.
  destruct (String.eqb_spec y x) as [->|Hne]; simpl.
  - split; [intros [?|[_ ?]]; auto; discriminate|auto].
  - split; [intros [?|[? _]]; auto|intros [?|?]; auto].
Qed.

Lemma NoDup_unique : forall l, NoDup (Text.unique l).
Proof.
  induction l as [|y l IH]; [constructor|]. simpl. apply NoDup_cons. split.
  - rewrite list_elem_of_In, filter_In. intros [_ H].
    by rewrite String.eqb_refl in H.
  - apply NoDup_ListNoDup, List.NoDup_filter. by apply NoDup_ListNoDup.
Qed.

Lemma unique_snoc :
  forall l x,
    Text.unique (l ++ [x])
    = if decide (x ∈ l) then Text.unique l else Text.unique l ++ [x].
Proof.
  induction l as [|y l IH]; intros x.
  - simpl. destruct (decide (x ∈ [])) as [H|_]; [by apply elem_of_nil in H|done].
  - cbn [app Text.unique]. rewrite IH.
    destruct (decide (x ∈ l)) as [Hin|Hnin].
    + destruct (decide (x ∈ y :: l)) as [_|Hn]; [reflexivity|].
      exfalso. apply Hn. by right.
    + rewrite List.filter_app. cbn [List.filter].
      destruct (String.eqb_spec y x) as [->|Hne]; simpl.
      * destruct (decide (x ∈ x :: l)) as [_|Hn]; [by rewrite app_nil_r|].
        exfalso. apply Hn. left.
      * destruct (decide (x ∈ y :: l)) as [Hin|_]; [|reflexivity].
        apply elem_of_cons in Hin as [->|Hin]; done.
Qed.

(** X6. The distinct values sent for an option: no value occurs twice,
    the values are those of the rows, and they stand in the order in
    which the rows first show them (a value seen before changes nothing,
    a new one goes last). *)
Theorem unique_keeps_first_occurrences :
  forall l,
    NoDup (Text.unique l)
    /\ (forall x, x ∈ Text.unique l <-> x ∈ l)
    /\ (forall x, Text.unique (l ++ [x])
                  = if decide (x ∈ l) then Text.unique l else Text.unique l ++ [x]).
Proof.
  intros l. split; [apply NoDup_unique|]. split.
  - apply elem_of_unique.
  - apply unique_snoc.
Qed.

(** ** Ensuring the option *)

(** X7. Ensuring the option raises nothing.  Without an option name or
    without values it sends nothing.  Otherwise it reads the product's
    options once, and sends nothing more when the name is among them;
    when it is not, or the read failed, it sends one creation of the
    option with the distinct values, and reports whether that came back
    without user errors. *)
Theorem ensure_options_requests :
  forall remote product_id option_name option_values tr,
    exists ok ev,
      ensure_product_options_exist remote product_id option_name option_values tr
      = (Ok ok, tr ++ ev)
      /\ requests_of ev
         = (if negb (some_text option_name) || is_nil option_values then []
            else if existsb (String.eqb (default "" option_name))
                      (shown_options (remote tr (GetProduct product_id)))
                 then [GetProduct product_id]
                 else [GetProduct product_id;
                       ProductOptionsCreate product_id (default "" option_name)
                         (Text.unique option_values)])
      /\ (ok = false ->
          exists ev1 h,
            ev = ev1 ++ Sent (ProductOptionsCreate product_id
                                (default "" option_name)
                                (Text.unique option_values)) :: cooldown_of h
            /\ h = remote (tr ++ ev1)
                     (ProductOptionsCreate product_id (default "" option_name)
                        (Text.unique option_values))
            /\ (forall user_errors,
                  get_productOptionsCreate (data_of h) = Some user_errors ->
                  user_errors <> [])).
Proof.
  intros remote product_id option_name option_values tr.
  unfold ensure_product_options_exist, shown_options.
  destruct (negb (some_text option_name) || is_nil option_values).
  { exists true, []. unfold run_ret. rewrite app_nil_r. repeat split. discriminate. }
  unfold run_bind at 1. rewrite run_graphql_query_eq.
  set (h := remote tr (GetProduct product_id)).
  destruct (existsb _ _); simpl.
  { exists true, (Sent (GetProduct product_id) :: cooldown_of h).
    split; [reflexivity|]. rewrite requests_of_sent. repeat split. discriminate. }
  unfold run_bind. rewrite run_graphql_query_eq.
  set (q := ProductOptionsCreate product_id (default "" option_name)
              (Text.unique option_values)).
  set (tr1 := tr ++ Sent (GetProduct product_id) :: cooldown_of h).
  assert (requests_of ((Sent (GetProduct product_id) :: cooldown_of h)
                       ++ Sent q :: cooldown_of (remote tr1 q))
          = [GetProduct product_id; q]) as Hreq.
  { by rewrite requests_of_app, !requests_of_sent. }
  destruct (get_productOptionsCreate (data_of (remote tr1 q))) as [errs|] eqn:He.
  - exists (is_nil errs),
      ((Sent (GetProduct product_id) :: cooldown_of h)
       ++ Sent q :: cooldown_of (remote tr1 q)).
    unfold run_ret, tr1. rewrite <- app_assoc. split; [reflexivity|].
    split; [exact Hreq|]. intros Hok.
    exists (Sent (GetProduct product_id) :: cooldown_of h), (remote tr1 q).
    repeat split. intros errs' He'. rewrite He in He'. injection He' as <-.
    by destruct errs.
  - exists false,
      ((Sent (GetProduct product_id) :: cooldown_of h)
       ++ Sent q :: cooldown_of (remote tr1 q)).
    unfold run_ret, tr1. rewrite <- app_assoc. split; [reflexivity|].
    split; [exact Hreq|]. intros _.
    exists (Sent (GetProduct product_id) :: cooldown_of h), (remote tr1 q).
    repeat split. intros errs' He'. rewrite He in He'. discriminate.
Qed.

(** ** Publishing *)

(** X8. Publishing raises nothing.  It lists the channels once; it then
    sends at most one publish call, for the product and the first listed
    channel named exactly "Online Store", and none when the listing
    failed, shows no such channel or shows it without an identifier. *)
Theorem publish_requests :
  forall remote product_id tr,
    exists ev,
      publish_product_to_sales_channel remote product_id tr = (Ok tt, tr ++ ev)
      /\ (requests_of ev = [GetPublications]
          \/ exists edges before id after,
               get_publications (data_of (remote tr GetPublications)) = Some edges
               /\ edges = before ++ (id, "Online Store") :: after
               /\ Forall (fun node => snd node <> "Online Store") before
               /\ id <> ""
               /\ requests_of ev
                  = [GetPublications; PublishablePublish product_id id]).
Proof.
  intros remote product_id tr.
  unfold publish_product_to_sales_channel, run_bind at 1.
  rewrite run_graphql_query_eq. set (h := remote tr GetPublications).
  destruct (get_publications (data_of h)) as [edges|] eqn:He.
  - destruct (List.find _ edges) as [[id name]|] eqn:Hfind.
    + simpl. destruct id as [|c id]; simpl.
      * eexists. split; [reflexivity|]. left. apply requests_of_sent.
      * unfold run_bind. rewrite run_graphql_query_eq. unfold run_ret.
        eexists (_ ++ _). rewrite app_assoc. split; [reflexivity|]. right.
        apply find_some in Hfind as Hname. destruct Hname as [_ Hname].
        simpl in Hname. apply String.eqb_eq in Hname as ->.
        assert (exists before after,
                   edges = before ++ (String c id, "Online Store") :: after
                   /\ Forall (fun node => snd node <> "Online Store") before)
          as (before & after & Hedges & Hbefore).
        { clear He. induction edges as [|[id' name'] edges IH]; [discriminate|].
          simpl in Hfind. destruct (String.eqb_spec name' "Online Store") as [->|Hne].
          - injection Hfind as ->. exists [], edges. split; [done|constructor].
          - destruct (IH Hfind) as (before & after & -> & Hb).
            exists ((id', name') :: before), after. split; [done|].
            by constructor. }
        exists edges, before, (String c id), after.
        repeat split; try done.
        by rewrite requests_of_app, !requests_of_sent.
    + simpl. eexists. split; [reflexivity|]. left. apply requests_of_sent.
  - eexists. split; [reflexivity|]. left. apply requests_of_sent.
Qed.

(** ** What each step may send *)

Ltac sends_step :=
  lazymatch goal with
  | |- sends _ (run_ret _) => apply sends_ret
  | |- sends _ (run_bind _ _) => apply sends_bind; [|intros ?]
  | |- sends _ (when _ _) => apply sends_when
  | |- sends _ (emit _) => apply sends_emit
  | |- sends _ (run_graphql_query _ _) =>
      apply sends_query; simpl; rewrite ?String.eqb_refl; reflexivity
  | |- sends _ (match ?x with _ => _ end) => destruct x
  end.

Lemma sku_step_create : forall p q, sku_step q = true -> create_step p q = true.
Proof. intros p [] H; try discriminate H; reflexivity. Qed.


Lemma asset_step_create : forall p q, asset_step p q = true -> create_step p q = true.
Proof. intros p [] H; try discriminate H; simpl in *; by rewrite ?H. Qed.


Lemma sends_update_variant_sku_individual :
  forall remote inventory_item_id sku,
    sends sku_step (update_variant_sku_individual remote inventory_item_id sku).
Proof. intros. unfold update_variant_sku_individual. repeat sends_step. Qed.

Lemma sends_update_variant_sku :
  forall remote variant_id sku,
    sends sku_step (update_variant_sku remote variant_id sku).
Proof.
  intros. unfold update_variant_sku. repeat sends_step.
  apply sends_update_variant_sku_individual.
Qed.

Lemma sends_backfill_sku :
  forall remote b variant_id, sends sku_step (backfill_sku remote b variant_id).
Proof.
  intros. unfold backfill_sku. repeat sends_step.
  - apply sends_update_variant_sku_individual.
  - apply sends_update_variant_sku.
Qed.

Lemma sends_upload_all :
  forall remote local_file p paths,
    sends (asset_step p) (upload_all remote local_file paths).
Proof.
  intros remote local_file p paths. induction paths as [|path paths IH].
  - apply sends_ret.
  - cbn [upload_all]. apply sends_bind.
    + unfold upload_image_to_shopify. repeat sends_step.
    + intros image_id. repeat sends_step. exact IH.
Qed.

Lemma sends_add_images :
  forall remote local_file p image_paths,
    sends (asset_step p) (add_images_to_product remote local_file p image_paths).
Proof.
  intros. unfold add_images_to_product.
  destruct (negb (truthy image_paths) || isna image_paths); [apply sends_ret|].
  destruct (is_nil _); [apply sends_ret|].
  apply sends_bind; [apply sends_upload_all|]. intros ids. repeat sends_step.
Qed.

Lemma sends_add_metafields :
  forall remote p row_data,
    sends (asset_step p) (add_metafields_to_product remote p row_data).
Proof.
  intros. unfold add_metafields_to_product. apply sends_for_each.
  intros [col value] _. unfold add_metafield, create_metafield. repeat sends_step.
Qed.

Lemma sends_publish :
  forall remote p, sends (create_step p) (publish_product_to_sales_channel remote p).
Proof. intros. unfold publish_product_to_sales_channel. repeat sends_step. Qed.

Lemma sends_poll :
  forall remote p attempts last, sends (create_step p) (poll remote p attempts last).
Proof.
  intros remote p attempts. induction attempts as [|attempt rest IH]; intros last.
  - apply sends_ret.
  - cbn [poll]. repeat sends_step. apply IH.
Qed.



Lemma sends_after_query :
  forall ok remote query {A} (f : option payload -> run A),
    (forall data, sends ok (f data)) ->
    forall tr, exists a ev l,
      run_bind (run_graphql_query remote query) f tr = (Ok a, tr ++ ev)
      /\ requests_of ev = query :: l
      /\ Forall (fun q => ok q = true) l.
Proof.
  intros ok remote query A f Hf tr. unfold run_bind. rewrite run_graphql_query_eq.
  destruct (Hf (data_of (remote tr query))
              (tr ++ Sent query :: cooldown_of (remote tr query)))
    as (a & ev & -> & Hall).
  exists a, ((Sent query :: cooldown_of (remote tr query)) ++ ev), (requests_of ev).
  rewrite app_assoc. split; [reflexivity|].
  by rewrite requests_of_app, requests_of_sent.
Qed.

(** ** Rows with all their columns *)

Lemma row_has_find : forall r k, row_has r k = true -> exists c, row_find r k = Some c.
Proof. intros r k H. unfold row_has in H. destruct (row_find r k); [eauto|discriminate]. Qed.

Lemma complete_columns :
  forall r,
    complete r = true ->
    row_has r "handle" = true /\ row_has r "title" = true
    /\ row_has r "variant_option1_name" = true
    /\ row_has r "variant_option1_value" = true.
Proof.
  intros r H. unfold complete in H.
  apply andb_true_iff in H as [H H4]. apply andb_true_iff in H as [H H3].
  apply andb_true_iff in H as [H1 H2]. auto.
Qed.

Lemma product_input_of_complete :
  forall id r,
    complete r = true ->
    exists input, product_input_of id r = Ok input /\ in_id input = id.
Proof.
  intros id r H. apply complete_columns in H as (Hh & Ht & _ & _).
  apply row_has_find in Hh as [h Hh]. apply row_has_find in Ht as [t Ht].
  unfold product_input_of, row_item. rewrite Ht, Hh. eauto.
Qed.

Lemma option_name_of_complete :
  forall r, complete r = true -> exists option_name, option_name_of r = Ok option_name.
Proof.
  intros r H. apply complete_columns in H as (_ & _ & Hn & _).
  apply row_has_find in Hn as [c Hn].
  unfold option_name_of, row_get, row_item. rewrite Hn. destruct (isna c); eauto.
Qed.

Lemma option_value_complete :
  forall r (b : bool) {A} (f : cell -> A),
    complete r = true ->
    exists a : option A,
      (if b && negb (isna (row_get r "variant_option1_value" (Txt "")))
       then match row_item r "variant_option1_value" with
            | Ok c => Ok (Some (f c))
            | Raise e => Raise e
            end
       else Ok None) = Ok a.
Proof.
  intros r b A f H. apply complete_columns in H as (_ & _ & _ & Hv).
  apply row_has_find in Hv as [c Hv]. unfold row_get, row_item. rewrite Hv.
  destruct (b && negb (isna c)); eauto.
Qed.

Lemma option_values_of_complete :
  forall group_df,
    Forall (fun r => complete r = true) group_df ->
    exists option_values, option_values_of group_df = Ok option_values.
Proof.
  intros group_df H. induction H as [|r rows Hr _ [l IH]]; [by exists []|].
  apply complete_columns in Hr as (_ & _ & _ & Hv).
  apply row_has_find in Hv as [c Hv]. simpl. unfold row_get, row_item.
  rewrite Hv, IH. destruct (isna c); eauto.
Qed.

Lemma collect_rows_complete :
  forall option_name evd vm vim group_df b,
    Forall (fun r => complete r = true) group_df ->
    exists b', collect_rows option_name evd vm vim b group_df = Ok b'.
Proof.
  intros option_name evd vm vim group_df b H. revert b.
  induction H as [|r rows Hr _ IH]; intros b; [by exists b|].
  simpl.
  assert (exists b', collect_row option_name evd vm vim b r = Ok b') as [b' ->].
  { unfold collect_row. destruct (negb _ || _); [eauto|].
    destruct (option_value_complete r (some_text option_name)
                (fun c => Text.strip (str c)) Hr) as [ov ->].
    destruct (some_text _); [eauto|].
    destruct (negb _); [|eauto]. destruct (default_variant_of evd); eauto. }
  apply IH.
Qed.





Lemma ends_bind :
  forall ok q {A B} (b : B) (m : run A) (f : A -> run B),
    sends ok m -> (forall a, ends_with ok q b (f a)) ->
    ends_with ok q b (run_bind m f).
Proof.
  intros ok q A B b m f Hm Hf tr. unfold run_bind.
  destruct (Hm tr) as (a & ev1 & -> & H1).
  destruct (Hf a (tr ++ ev1)) as (ev2 & -> & H2 & Hq).
  exists (ev1 ++ ev2). rewrite app_assoc. split; [reflexivity|].
  rewrite requests_of_app. split; [by apply Forall_app|].
  apply elem_of_app. by right.
Qed.

Lemma ends_lift_bind :
  forall ok q {A B} (b : B) (a : A) (f : A -> run B),
    ends_with ok q b (f a) -> ends_with ok q b (run_bind (lift (Ok a)) f).
Proof. intros ok q A B b a f H tr. exact (H tr). Qed.

Lemma ends_publish :
  forall remote p,
    ends_with (create_step p) GetPublications (Some p)
      (publish_product_to_sales_channel remote p ;; run_ret (Some p)).
Proof.
  intros remote p tr. unfold run_bind at 1.
  assert (exists (a : unit) ev l,
             publish_product_to_sales_channel remote p tr = (Ok a, tr ++ ev)
             /\ requests_of ev = GetPublications :: l
             /\ Forall (fun q => create_step p q = true) l)
    as ([] & ev & l & -> & Hreq & Hl).
  { unfold publish_product_to_sales_channel. apply sends_after_query.
    intros data. repeat (cbv beta zeta; sends_step). }
  exists ev. unfold run_ret. split; [reflexivity|]. rewrite Hreq. split.
  - by constructor.
  - left.
Qed.

Lemma create_product_steps :
  forall remote local_file group_df main_row,
    iloc0 group_df = Ok main_row ->
    Forall (fun r => complete r = true) group_df ->
    forall tr, exists input r ev l,
      product_input_of None main_row = Ok input
      /\ create_product_with_variants remote local_file group_df tr = (Ok r, tr ++ ev)
      /\ requests_of ev = ProductCreate input :: l
      /\ r = (get_productCreate (data_of (remote tr (ProductCreate input)))
              ≫= pr_product)
      /\ match r with
         | Some p => Forall (fun q => create_step p q = true) l /\ GetPublications ∈ l
         | None => l = []
         end.
Proof.
  intros remote local_file group_df main_row Hrow Hg tr.
  assert (complete main_row = true) as Hm.
  { destruct group_df as [|r rows]; [discriminate|]. injection Hrow as <-.
    by apply Forall_cons in Hg as [? _]. }
  destruct (product_input_of_complete None main_row Hm) as (input & Hin & _).
  exists input. unfold create_product_with_variants.
  unfold run_bind at 1, lift at 1. rewrite Hrow.
  unfold run_bind at 1, lift at 1. rewrite Hin.
  unfold run_bind at 1. rewrite run_graphql_query_eq.
  set (h := remote tr (ProductCreate input)).
  destruct (get_productCreate (data_of h) ≫= pr_product) as [p|].
  2:{ exists None, (Sent (ProductCreate input) :: cooldown_of h), [].
      rewrite requests_of_sent. by repeat split. }
  destruct (option_name_of_complete main_row Hm) as [option_name ->].
  destruct (option_values_of_complete group_df Hg) as [option_values ->].
  match goal with
  | |- context [run_bind (lift (Ok option_name)) ?f] =>
      assert (ends_with (create_step p) GetPublications (Some p)
                (run_bind (lift (Ok option_name)) f)) as Hends
  end.
  { apply ends_lift_bind, ends_lift_bind. apply ends_bind.
    { repeat sends_step. }
    intros _. apply ends_bind; [apply sends_poll|]. intros evd.
    destruct (index_variants evd) as [vm vim].
    destruct (collect_rows_complete option_name evd vm vim group_df empty_batch Hg)
      as [b ->].
    apply ends_lift_bind. apply ends_bind.
    { apply sends_when. apply sends_bind; [repeat sends_step|].
      intros update_data. destruct (get_productVariantsBulkUpdate update_data);
        [|apply sends_ret].
      apply sends_for_each. intros variant_id _.
      eapply sends_mono; [apply sku_step_create|apply sends_backfill_sku]. }
    intros _. apply ends_bind.
    { apply sends_when.
      eapply sends_mono; [apply asset_step_create|apply sends_add_images]. }
    intros _. apply ends_bind.
    { eapply sends_mono; [apply asset_step_create|apply sends_add_metafields]. }
    intros _. apply ends_publish. }
  destruct (Hends (tr ++ Sent (ProductCreate input) :: cooldown_of h))
    as (ev & -> & Hall & Hpub).
  exists (Some p), ((Sent (ProductCreate input) :: cooldown_of h) ++ ev),
    (requests_of ev).
  rewrite app_assoc, requests_of_app, requests_of_sent. by repeat split.
Qed.






(** ** The run as a whole *)


(** X10. A spreadsheet that lacks one of the required columns stops the
    run before anything is sent. *)
Theorem missing_required_column_sends_nothing :
  forall remote local_file df col,
    col ∈ required_columns ->
    col ∉ columns df ->
    main remote local_file df = [].
Proof.
  intros remote local_file df col Hreq Hmiss. unfold main.
  destruct (List.filter _ required_columns) as [|c cs] eqn:Hf; [|reflexivity].
  exfalso.
  assert (In col (List.filter
                    (fun col => negb (existsb (String.eqb col) (columns df)))
                    required_columns)) as Hin.
  { apply filter_In. split; [by apply list_elem_of_In|].
    apply negb_true_iff. apply not_true_is_false. intros He.
    apply existsb_exists in He as (c & Hc & He). apply String.eqb_eq in He as <-.
    apply Hmiss. by apply list_elem_of_In. }
  rewrite Hf in Hin. destruct Hin.
Qed.


Lemma missing_required_column_sends_nothing_witness :
  main creating_remote no_files priceless_df = [].
Proof.
  apply (missing_required_column_sends_nothing creating_remote no_files
           priceless_df "variant_price").
  - repeat constructor.
  - intros H. repeat (apply elem_of_cons in H as [H|H]; [discriminate H|]).
    by apply elem_of_nil in H.
Defined.

(** ** After the shell is created *)

(** X11. Once the shell of a new product is created, and the rows have
    their columns, creating the product raises nothing and returns the
    identifier of the shell whatever the later answers are.  Every later
    request is an option creation, a variant query, a bulk price update,
    an attach or an upsert or a publish call for that same product, an
    upload or a SKU write; the channels are listed in every case.  No
    variant is created explicitly, nothing is undone. *)
Theorem created_product_is_returned :
  forall remote local_file group_df main_row tr input p,
    iloc0 group_df = Ok main_row ->
    Forall (fun r => complete r = true) group_df ->
    product_input_of None main_row = Ok input ->
    (get_productCreate (data_of (remote tr (ProductCreate input))) ≫= pr_product)
    = Some p ->
    exists ev l,
      create_product_with_variants remote local_file group_df tr
      = (Ok (Some p), tr ++ ev)
      /\ requests_of ev = ProductCreate input :: l
      /\ Forall (fun q => create_step p q = true) l
      /\ GetPublications ∈ l.
Proof.
  intros remote local_file group_df main_row tr input p Hrow Hg Hin Hp.
  destruct (create_product_steps remote local_file group_df main_row Hrow Hg tr)
    as (input' & r & ev & l & Hin' & Hrun & Hreq & Hr & Hl).
  rewrite Hin in Hin'. injection Hin' as <-. rewrite Hp in Hr. subst r.
  destruct Hl as [Hl Hpub]. by exists ev, l.
Qed.

Lemma created_product_is_returned_witness :
  exists ev l,
    create_product_with_variants creating_remote no_files [cup_row]
      [Sent (ProductByHandle (Txt "cup"))]
    = (Ok (Some "gid://shopify/Product/9"),
       [Sent (ProductByHandle (Txt "cup"))] ++ ev)
    /\ requests_of ev = ProductCreate (cup_input None) :: l
    /\ Forall (fun q => create_step "gid://shopify/Product/9" q = true) l
    /\ GetPublications ∈ l.
Proof.
  apply (created_product_is_returned creating_remote no_files [cup_row] cup_row
           [Sent (ProductByHandle (Txt "cup"))] (cup_input None)
           "gid://shopify/Product/9" eq_refl).
  - repeat constructor.
  - reflexivity.
  - reflexivity.
Defined.

Example created_product_run :
  create_product_with_variants creating_remote no_files [cup_row]
    [Sent (ProductByHandle (Txt "cup"))]
  = (Ok (Some "gid://shopify/Product/9"),
     [Sent (ProductByHandle (Txt "cup"));
      Sent (ProductCreate (cup_input None));
      Sent (GetProductVariants "gid://shopify/Product/9"); Sleep 2;
      Sent (GetProductVariants "gid://shopify/Product/9"); Sleep 2;
      Sent (GetProductVariants "gid://shopify/Product/9");
      Sent GetPublications]).
Proof. vm_compute. reflexivity. Qed.



(** ** Spreadsheets without the option columns *)

Lemma option_columns_raise :
  forall main_row rows k,
    (row_find main_row "variant_option1_name" = None /\ k = "variant_option1_name")
    \/ (row_find main_row "variant_option1_name" <> None
        /\ row_find main_row "variant_option1_value" = None
        /\ k = "variant_option1_value") ->
    option_name_of main_row = Raise (KeyError k)
    \/ (exists option_name, option_name_of main_row = Ok option_name)
       /\ option_values_of (main_row :: rows) = Raise (KeyError k).
Proof.
  intros main_row rows k [[Hn ->]|(Hn & Hv & ->)].
  - left. unfold option_name_of, row_get, row_item. by rewrite Hn.
  - right. split.
    + unfold option_name_of, row_get, row_item.
      destruct (row_find main_row "variant_option1_name") as [c|]; [|done].
      destruct (isna c); eauto.
    + simpl. unfold row_get, row_item. by rewrite Hv.
Qed.

(** X13. On the create path the option columns are read without a
    default.  When the first row of a group lacks the option-name column,
    or has it and lacks the option-value column, and the shell has been
    created, the KeyError ends the run there: the group has sent the
    lookup and the creation only, the shell stays as it is, and the
    remaining groups are not processed. *)
Theorem missing_option_column_strands_new_product :
  forall remote local_file handle main_row rows rest tr
         existing_variants existing_options default_variant_id tr1
         input data tr2 p k,
    check_product_exists remote handle tr
    = (Ok (None, existing_variants, existing_options, default_variant_id), tr1) ->
    product_input_of None main_row = Ok input ->
    run_graphql_query remote (ProductCreate input) tr1 = (Ok data, tr2) ->
    (get_productCreate data ≫= pr_product) = Some p ->
    (row_find main_row "variant_option1_name" = None /\ k = "variant_option1_name")
    \/ (row_find main_row "variant_option1_name" <> None
        /\ row_find main_row "variant_option1_value" = None
        /\ k = "variant_option1_value") ->
    process_groups remote local_file ((handle, main_row :: rows) :: rest) tr
    = (Raise (KeyError k), tr2)
    /\ requests_of tr2
       = requests_of tr ++ [ProductByHandle handle; ProductCreate input].
Proof.
  intros remote local_file handle main_row rows rest tr
         existing_variants existing_options default_variant_id tr1
         input data tr2 p k Hlook Hin Hrun Hp Hmiss.
  assert (create_product_with_variants remote local_file (main_row :: rows) tr1
          = (Raise (KeyError k), tr2)) as Hcreate.
  { unfold create_product_with_variants. unfold run_bind at 1, lift at 1.
    cbn [iloc0]. unfold run_bind at 1, lift at 1. rewrite Hin.
    unfold run_bind at 1. rewrite Hrun, Hp.
    destruct (option_columns_raise main_row rows k Hmiss) as [Hn|[[on Hn] Hv]].
    - unfold run_bind at 1, lift at 1. by rewrite Hn.
    - unfold run_bind at 1, lift at 1. rewrite Hn.
      unfold run_bind at 1, lift at 1. by rewrite Hv. }
  split.
  - unfold process_groups. cbn [for_each]. unfold run_bind at 1.
    unfold process_group. unfold run_bind at 1, lift at 1. cbn [iloc0].
    unfold run_bind at 1. rewrite Hlook. cbv iota beta.
    unfold run_bind at 1. by rewrite Hcreate.
  - unfold check_product_exists, run_bind in Hlook.
    rewrite run_graphql_query_eq in Hlook, Hrun.
    injection Hrun as _ <-.
    assert (tr1 = tr ++ Sent (ProductByHandle handle)
                       :: cooldown_of (remote tr (ProductByHandle handle))) as ->.
    { destruct (get_productByHandle _); by injection Hlook. }
    rewrite !requests_of_app, !requests_of_sent, <- app_assoc. reflexivity.
Qed.

Lemma missing_option_column_strands_new_product_witness :
  process_groups creating_remote no_files
    [(Txt "cup", [bare_row]); (Txt "mug", [row_a])] []
  = (Raise (KeyError "variant_option1_name"),
     [Sent (ProductByHandle (Txt "cup")); Sent (ProductCreate (cup_input None))]).
Proof.
  refine (proj1 (missing_option_column_strands_new_product creating_remote
                   no_files (Txt "cup") bare_row [] [(Txt "mug", [row_a])] []
                   ∅ [] None [Sent (ProductByHandle (Txt "cup"))]
                   (cup_input None)
                   (Some (DProductCreate
                            (Some {| pr_product := Some "gid://shopify/Product/9";
                                     pr_user_errors := [] |})))
                   [Sent (ProductByHandle (Txt "cup"));
                    Sent (ProductCreate (cup_input None))]
                   "gid://shopify/Product/9" "variant_option1_name"
                   eq_refl eq_refl eq_refl eq_refl _)).
  left. split; reflexivity.
Defined.



(** ** The batch of the create path *)

Lemma collect_row_without_option :
  forall option_name evd vm vim b r,
    some_text option_name = false ->
    collect_row option_name evd vm vim b r
    = Ok (if no_sku r then b
          else match default_variant_of evd with
               | Some default_variant =>
                   queue vim (v_id default_variant) r
                     (row_get r "variant_sku" (Txt "")) b
               | None => b
               end).
Proof.
  intros option_name evd vm vim b r Hn. unfold collect_row, no_sku.
  destruct (negb _ || _); [reflexivity|]. rewrite Hn. simpl.
  destruct (default_variant_of evd); reflexivity.
Qed.

Lemma collect_rows_without_option :
  forall option_name evd vm vim dv rows b,
    some_text option_name = false ->
    default_variant_of evd = Some dv ->
    exists b',
      collect_rows option_name evd vm vim b rows = Ok b'
      /\ variants_to_update b'
         = variants_to_update b
           ++ ((fun r => (v_id dv, price_of r)) <$> List.filter has_sku rows)
      /\ variant_sku_map b'
         = match last (List.filter has_sku rows) with
           | Some r =>
               <[v_id dv := (known_inventory vim (v_id dv), sku_text r)]>
                 (variant_sku_map b)
           | None => variant_sku_map b
           end.
Proof.
  intros option_name evd vm vim dv rows b Hn Hdv. revert b.
  induction rows as [|r rows IH]; intros b.
  - exists b. simpl. by rewrite app_nil_r.
  - cbn [collect_rows]. rewrite collect_row_without_option by done. rewrite Hdv.
    cbn [List.filter]. change (has_sku r) with (negb (no_sku r)).
    destruct (no_sku r); cbn [negb]; cbv iota; [apply IH|].
    destruct (IH (queue vim (v_id dv) r (row_get r "variant_sku" (Txt "")) b))
      as (b' & -> & Hup & Hmap).
    exists b'. split; [reflexivity|]. split.
    + rewrite Hup. cbn [queue variants_to_update fmap list_fmap].
      by rewrite <- app_assoc.
    + rewrite Hmap. cbn [queue variant_sku_map]. rewrite last_cons.
      destruct (last (List.filter has_sku rows)); [|reflexivity].
      by rewrite insert_insert_eq.
Qed.

(** X15. On the create path of a group without an option name, every row
    that has a SKU is written on the first variant without selected
    options: the price batch holds one update of that variant per such
    row, in row order, and the one SKU remembered for it is that of the
    last such row.  Without such a variant nothing is queued. *)
Theorem create_path_without_option :
  forall option_name evd vm vim rows,
    some_text option_name = false ->
    exists b,
      collect_rows option_name evd vm vim empty_batch rows = Ok b
      /\ match default_variant_of evd with
         | Some dv =>
             variants_to_update b
             = (fun r => (v_id dv, price_of r)) <$> List.filter has_sku rows
             /\ variant_sku_map b
                = match last (List.filter has_sku rows) with
                  | Some r =>
                      {[v_id dv := (known_inventory vim (v_id dv), sku_text r)]}
                  | None => ∅
                  end
         | None => b = empty_batch
         end.
Proof.
  intros option_name evd vm vim rows Hn.
  destruct (default_variant_of evd) as [dv|] eqn:Hdv.
  - destruct (collect_rows_without_option option_name evd vm vim dv rows
                empty_batch Hn Hdv) as (b & Hb & Hup & Hmap).
    exists b. split; [exact Hb|]. split; [exact Hup|].
    rewrite Hmap. destruct (last _); reflexivity.
  - exists empty_batch. split; [|reflexivity].
    generalize empty_batch. induction rows as [|r rows IH]; intros b; [reflexivity|].
    cbn [collect_rows]. rewrite collect_row_without_option by done.
    rewrite Hdv. destruct (no_sku r); apply IH.
Qed.

Lemma create_path_without_option_witness :
  exists b,
    collect_rows None plain_variants (fst (index_variants plain_variants))
      (snd (index_variants plain_variants)) empty_batch [row_a; row_b] = Ok b
    /\ match default_variant_of plain_variants with
       | Some dv =>
           variants_to_update b
           = (fun r => (v_id dv, price_of r)) <$> List.filter has_sku [row_a; row_b]
           /\ variant_sku_map b
              = match last (List.filter has_sku [row_a; row_b]) with
                | Some r =>
                    {[v_id dv :=
                        (known_inventory (snd (index_variants plain_variants))
                           (v_id dv), sku_text r)]}
                | None => ∅
                end
       | None => b = empty_batch
       end.
Proof.
  apply (create_path_without_option None plain_variants
           (fst (index_variants plain_variants))
           (snd (index_variants plain_variants)) [row_a; row_b] eq_refl).
Defined.

Example create_path_without_option_run :
  (fun b => (variants_to_update b, variant_sku_map b !! "v9"))
    <$> match collect_rows None plain_variants (fst (index_variants plain_variants))
                (snd (index_variants plain_variants)) empty_batch [row_a; row_b] with
        | Ok b => Some b
        | Raise _ => None
        end
  = Some ([("v9", "9.00"); ("v9", "12.50")], Some (Some "i9", "MUG-B")).
Proof. vm_compute. reflexivity. Qed.

Lemma queue_invariant :
  forall vim id r b (group_df : list row),
    r ∈ group_df ->
    no_sku r = false ->
    (forall id', is_Some (variant_sku_map b !! id')
                 <-> id' ∈ (fst <$> variants_to_update b)) ->
    (forall id' inv sku,
        variant_sku_map b !! id' = Some (inv, sku) ->
        exists r', r' ∈ group_df /\ no_sku r' = false /\ sku = sku_text r'
                   /\ (id', price_of r') ∈ variants_to_update b) ->
    let b' := queue vim id r (row_get r "variant_sku" (Txt "")) b in
    (forall id', is_Some (variant_sku_map b' !! id')
                 <-> id' ∈ (fst <$> variants_to_update b'))
    /\ (forall id' inv sku,
          variant_sku_map b' !! id' = Some (inv, sku) ->
          exists r', r' ∈ group_df /\ no_sku r' = false /\ sku = sku_text r'
                     /\ (id', price_of r') ∈ variants_to_update b').
Proof.
  intros vim id r b group_df Hr Hsku Hdom Hsrc. simpl. split.
  - intros id'. rewrite fmap_app, elem_of_app, <- Hdom. simpl.
    rewrite lookup_insert_is_Some', list_elem_of_singleton.
    split; intros [H|H]; subst; auto.
  - intros id' inv sku H. destruct (decide (id = id')) as [<-|Hne].
    + rewrite lookup_insert_eq in H. injection H as _ <-.
      exists r. repeat split; try done. apply elem_of_app. right. left.
    + rewrite lookup_insert_ne in H by done.
      destruct (Hsrc id' inv sku H) as (r' & ? & ? & ? & ?).
      exists r'. repeat split; try done. apply elem_of_app. by left.
Qed.

(** X16. The batch of the create path keeps its two parts together: a
    variant has a SKU remembered exactly when a price update is queued
    for it, the SKU is that of a row of the group that has a SKU and
    whose price is queued for that variant, and there are at most as many
    price updates as rows with a SKU. *)
Theorem batch_is_consistent :
  forall option_name evd vm vim group_df b,
    collect_rows option_name evd vm vim empty_batch group_df = Ok b ->
    (forall id, is_Some (variant_sku_map b !! id)
                <-> id ∈ (fst <$> variants_to_update b))
    /\ (forall id inv sku,
          variant_sku_map b !! id = Some (inv, sku) ->
          exists r, r ∈ group_df /\ no_sku r = false /\ sku = sku_text r
                    /\ (id, price_of r) ∈ variants_to_update b)
    /\ length (variants_to_update b) <= length (List.filter has_sku group_df).
Proof.
  intros option_name evd vm vim group_df b H.
  assert (forall rows b0 b1,
             (forall r, r ∈ rows -> r ∈ group_df) ->
             collect_rows option_name evd vm vim b0 rows = Ok b1 ->
             ((forall id, is_Some (variant_sku_map b0 !! id)
                          <-> id ∈ (fst <$> variants_to_update b0))
              /\ (forall id inv sku,
                    variant_sku_map b0 !! id = Some (inv, sku) ->
                    exists r, r ∈ group_df /\ no_sku r = false /\ sku = sku_text r
                              /\ (id, price_of r) ∈ variants_to_update b0)) ->
             ((forall id, is_Some (variant_sku_map b1 !! id)
                          <-> id ∈ (fst <$> variants_to_update b1))
              /\ (forall id inv sku,
                    variant_sku_map b1 !! id = Some (inv, sku) ->
                    exists r, r ∈ group_df /\ no_sku r = false /\ sku = sku_text r
                              /\ (id, price_of r) ∈ variants_to_update b1))
             /\ length (variants_to_update b1)
                <= length (variants_to_update b0) + length (List.filter has_sku rows))
    as Hgen.
  { induction rows as [|r rows IH]; intros b0 b1 Hsub Hrun Hinv.
    - injection Hrun as <-. split; [exact Hinv|simpl; lia].
    - cbn [collect_rows] in Hrun.
      destruct (collect_row option_name evd vm vim b0 r) as [b0'|e] eqn:Hrow;
        [|discriminate].
      assert ((b0' = b0
               \/ no_sku r = false
                  /\ exists id, b0' = queue vim id r (row_get r "variant_sku" (Txt "")) b0))
        as Hcase.
      { unfold collect_row in Hrow. fold (no_sku r) in Hrow.
        destruct (no_sku r); [injection Hrow as <-; by left|].
        destruct (if some_text option_name && _ then _ else _) as [ov|];
          [|discriminate].
        destruct (some_text _);
          [injection Hrow as <-; right; split; [done|eauto]|].
        destruct (negb _); [|injection Hrow as <-; by left].
        destruct (default_variant_of evd);
          injection Hrow as <-; [right; split; [done|eauto]|by left]. }
      assert (forall r', r' ∈ rows -> r' ∈ group_df) as Hsub'.
      { intros r' Hr'. apply Hsub. by right. }
      cbn [List.filter]. unfold has_sku at 1.
      destruct Hcase as [->|[Hsku [id ->]]].
      + destruct (IH b0 b1 Hsub' Hrun Hinv) as [Hinv1 Hlen]. split; [exact Hinv1|].
        destruct (negb (no_sku r)); simpl; lia.
      + destruct Hinv as [Hdom Hsrc].
        pose proof (queue_invariant vim id r b0 group_df
                      (Hsub r ltac:(left)) Hsku Hdom Hsrc) as Hq.
        destruct (IH _ b1 Hsub' Hrun Hq) as [Hinv1 Hlen]. split; [exact Hinv1|].
        rewrite Hsku. simpl in *. rewrite length_app in Hlen. simpl in Hlen. lia. }
  destruct (Hgen group_df empty_batch b (fun r Hr => Hr) H) as [[Hdom Hsrc] Hlen].
  - split.
    + intros id. simpl. rewrite lookup_empty. split.
      * by intros [? ?].
      * intros Hin. by apply elem_of_nil in Hin.
    + intros id inv sku Hl. simpl in Hl. by rewrite lookup_empty in Hl.
  - simpl in Hlen. auto.
Qed.

Lemma batch_is_consistent_witness :
  (forall id, is_Some (variant_sku_map small_batch !! id)
              <-> id ∈ (fst <$> variants_to_update small_batch))
  /\ (forall id inv sku,
        variant_sku_map small_batch !! id = Some (inv, sku) ->
        exists r, r ∈ [row_medium; row_small] /\ no_sku r = false
                  /\ sku = sku_text r
                  /\ (id, price_of r) ∈ variants_to_update small_batch)
  /\ length (variants_to_update small_batch)
     <= length (List.filter has_sku [row_medium; row_small]).
Proof.
  apply (batch_is_consistent (Some "Size") small_variants
           (fst (index_variants small_variants))
           (snd (index_variants small_variants)) [row_medium; row_small]
           small_batch).
  vm_compute. reflexivity.
Defined.

(** ** Column names and row fields *)

Lemma split_max_nonempty : forall sep n s, Text.split_max sep n s <> [].
Proof.
  intros sep n s. revert n. induction s as [|c s IH]; intros [|k]; simpl; try done.
  destruct (Ascii.eqb c sep); [done|]. destruct (Text.split_max sep (S k) s); done.
Qed.

Lemma join_cons :
  forall sep x l, l <> [] -> join sep (x :: l) = x +:+ sep +:+ join sep l.
Proof. intros sep x [|y l] H; [done|reflexivity]. Qed.

Lemma split_max_join :
  forall sep n s, join (String sep EmptyString) (Text.split_max sep n s) = s.
Proof.
  intros sep n s. revert n. induction s as [|c s IH]; intros [|k]; try reflexivity.
  cbn [Text.split_max]. destruct (Ascii.eqb_spec c sep) as [->|Hne].
  - rewrite join_cons by apply split_max_nonempty. simpl. by rewrite IH.
  - specialize (IH (S k)).
    destruct (Text.split_max sep (S k) s) as [|p ps] eqn:Hs.
    { by apply split_max_nonempty in Hs. }
    destruct ps as [|q ps]; [simpl in *; by rewrite IH|].
    rewrite join_cons in IH |- * by done. rewrite <- IH. reflexivity.
Qed.

Lemma split_max_head :
  forall sep k s p ps,
    Text.split_max sep (S k) s = p :: ps ->
    has_char sep p = false
    /\ (ps = [] \/ exists rest, ps = Text.split_max sep k rest).
Proof.
  intros sep k s. induction s as [|c s IH]; intros p ps H.
  - injection H as <- <-. auto.
  - cbn [Text.split_max] in H. destruct (Ascii.eqb c sep) eqn:Hc.
    + injection H as <- <-. split; [reflexivity|]. right. by exists s.
    + destruct (Text.split_max sep (S k) s) as [|p' ps'] eqn:Hs.
      { by apply split_max_nonempty in Hs. }
      injection H as <- <-. destruct (IH p' ps' eq_refl) as [Hp Hps].
      split; [|exact Hps]. simpl. by rewrite Hc, Hp.
Qed.

(** X17. When a column name gives a namespace, a key and a type, the
    namespace and the key hold no underscore, and the three pieces put
    together again with underscores are the name without [metafield_]
    (the type is the default one when the name has two pieces only).  So
    a namespace or key with an underscore in it cannot be addressed, and
    nothing of the name is lost. *)
Theorem metafield_name_parts :
  forall col namespace key type_name,
    metafield_parts col = Some (namespace, key, type_name) ->
    has_char "_"%char namespace = false
    /\ has_char "_"%char key = false
    /\ (Text.replace "metafield_" "" col = namespace +:+ "_" +:+ key
        /\ type_name = "single_line_text_field"
        \/ Text.replace "metafield_" "" col
           = namespace +:+ "_" +:+ key +:+ "_" +:+ type_name).
Proof.
  intros col namespace key type_name H. unfold metafield_parts in H.
  pose proof (split_max_join "_"%char 2 (Text.replace "metafield_" "" col)) as Hjoin.
  destruct (Text.split_max "_"%char 2 (Text.replace "metafield_" "" col))
    as [|p [|q [|t [|x xs]]]] eqn:Hs; try discriminate H.
  - injection H as <- <- <-.
    destruct (split_max_head _ _ _ _ _ Hs) as [Hp [Hq|[rest Hq]]]; [discriminate|].
    symmetry in Hq. destruct (split_max_head _ _ _ _ _ Hq) as [Hq' _].
    repeat split; try done. left. by rewrite <- Hjoin.
  - injection H as <- <- <-.
    destruct (split_max_head _ _ _ _ _ Hs) as [Hp [Hq|[rest Hq]]]; [discriminate|].
    symmetry in Hq. destruct (split_max_head _ _ _ _ _ Hq) as [Hq' _].
    repeat split; try done. right. by rewrite <- Hjoin.
Qed.

Lemma metafield_name_parts_witness :
  has_char "_"%char "custom" = false
  /\ has_char "_"%char "brand" = false
  /\ (Text.replace "metafield_" "" "metafield_custom_brand_number_integer"
      = "custom" +:+ "_" +:+ "brand"
      /\ "number_integer" = "single_line_text_field"
      \/ Text.replace "metafield_" "" "metafield_custom_brand_number_integer"
         = "custom" +:+ "_" +:+ "brand" +:+ "_" +:+ "number_integer").
Proof.
  exact (metafield_name_parts "metafield_custom_brand_number_integer"
           "custom" "brand" "number_integer" eq_refl).
Defined.

(** X18. The product fields sent are those of the row given: its handle
    and title as they are, the text of its description (empty when the
    column is missing, "nan" when the cell is empty), and its tags, each
    trimmed and not empty (none when the column is missing, the one tag
    "nan" when the cell is empty).  Building them fails exactly when the
    title or the handle column is missing. *)
Theorem product_input_fields :
  forall id r,
    match product_input_of id r with
    | Ok input =>
        in_id input = id
        /\ row_find r "handle" = Some (in_handle input)
        /\ row_find r "title" = Some (in_title input)
        /\ in_description input = str (row_get r "description" (Txt ""))
        /\ Forall (fun tag => Text.nonempty tag = true /\ Text.strip tag = tag)
             (in_tags input)
        /\ (row_find r "tags" = None -> in_tags input = [])
        /\ (row_find r "tags" = Some NaN -> in_tags input = ["nan"])
        /\ (row_find r "description" = None -> in_description input = "")
        /\ (row_find r "description" = Some NaN -> in_description input = "nan")
    | Raise e =>
        row_find r "title" = None /\ e = KeyError "title"
        \/ row_find r "title" <> None /\ row_find r "handle" = None
           /\ e = KeyError "handle"
    end.
Proof.
  intros id r. unfold product_input_of, row_item.
  destruct (row_find r "title") as [title|]; [|by left].
  destruct (row_find r "handle") as [handle|]; [|right; by repeat split].
  simpl. repeat split.
  - apply Forall_forall. intros tag Htag. by apply split_strip_trimmed in Htag.
  - intros H. unfold row_get. by rewrite H.
  - intros H. unfold row_get. by rewrite H.
  - intros H. unfold row_get. by rewrite H.
  - intros H. unfold row_get. by rewrite H.
Qed.

Example product_input_example :
  product_input_of None tagged_row
  = Ok {| in_id := None; in_handle := Txt "mug"; in_title := Txt "Mug";
          in_description := "nan"; in_vendor := ""; in_product_type := "";
          in_tags := ["summer"; "sale"; "new"] |}.
Proof. reflexivity. Qed.

(** ** Creating a variant on the update path *)

(** X19. When a row of an existing product matches no SKU, and the group
    declares an option name or the lookup gave no default variant, one
    variant is created with the row's price, scoped to the row's option
    value when the name is declared and the value is not NaN.  Only when
    the answer reports a created variant and the row has a SKU, the code
    pauses 2 seconds and writes the SKU on that variant; nothing else is
    sent, and no existing variant is written. *)
Theorem variant_creation_steps :
  forall remote product_id r option_name default_variant_id c tr,
    some_text option_name = true \/ some_text default_variant_id = false ->
    row_find r "variant_option1_value" = Some c ->
    let q := ProductVariantsBulkCreate product_id (price_of r)
               (if some_text option_name && negb (isna c)
                then Some (str c, default "" option_name) else None) in
    exists ev l,
      create_variant remote product_id r option_name default_variant_id tr
      = (Ok tt, tr ++ ev)
      /\ requests_of ev = q :: l
      /\ Forall (fun q' => sku_step q' = true) l
      /\ match created_variant (remote tr q) with
         | Some variant_id =>
             if no_sku r then l = []
             else Sleep 2 ∈ ev /\ exists l', l = GetVariant variant_id :: l'
         | None => l = []
         end.
Proof.
  intros remote product_id r option_name default_variant_id c tr Hbranch Hc q.
  unfold create_variant.
  assert (negb (some_text option_name) && some_text default_variant_id = false)
    as ->.
  { destruct Hbranch as [-> | ->]; [reflexivity|apply andb_false_r]. }
  unfold row_get, row_item. rewrite Hc.
  assert ((if some_text option_name && negb (isna c)
           then Ok (Some (str c, default "" option_name)) else Ok None)
          = Ok (if some_text option_name && negb (isna c)
                then Some (str c, default "" option_name) else None)) as ->.
  { by destruct (some_text option_name && negb (isna c)). }
  unfold run_bind at 1, lift at 1. unfold run_bind at 1.
  rewrite run_graphql_query_eq. fold q. set (h := remote tr q).
  unfold created_variant.
  assert (no_sku r = negb (truthy (row_get r "variant_sku" (Txt ""))
                           && negb (isna (row_get r "variant_sku" (Txt "")))))
    as Hno.
  { unfold no_sku.
    by destruct (truthy (row_get r "variant_sku" (Txt ""))),
         (isna (row_get r "variant_sku" (Txt ""))). }
  unfold row_get in Hno.
  destruct (get_productVariantsBulkCreate (data_of h)) as [res|].
  2:{ exists (Sent q :: cooldown_of h), []. rewrite requests_of_sent. by repeat split. }
  destruct (vr_product_variants res) as [|variant_id ids]; simpl.
  { exists (Sent q :: cooldown_of h), []. rewrite requests_of_sent. by repeat split. }
  rewrite Hno. destruct (truthy _ && negb (isna _)); simpl.
  - unfold run_bind, emit.
    set (tr1 := (tr ++ Sent q :: cooldown_of h) ++ [Sleep 2]).
    destruct (update_variant_sku_events remote variant_id
                (str match row_find r "variant_sku" with
                     | Some c0 => c0
                     | None => Txt ""
                     end) tr1) as (ok & ev & l & -> & Hreq & Hl & _).
    exists ((Sent q :: cooldown_of h) ++ [Sleep 2] ++ ev), (GetVariant variant_id :: l).
    unfold tr1. rewrite <- !app_assoc. split; [reflexivity|].
    rewrite !requests_of_app, requests_of_sent, Hreq. split; [reflexivity|].
    split.
    + constructor; [reflexivity|]. destruct Hl as [->|[inv ->]]; repeat constructor.
    + split; [|eauto]. apply elem_of_app. right. left.
  - exists (Sent q :: cooldown_of h), []. rewrite requests_of_sent. by repeat split.
Qed.

Lemma variant_creation_steps_witness :
  exists ev l,
    create_variant variant_creating_remote "gid://shopify/Product/3" row_medium
      (Some "Size") None [] = (Ok tt, [] ++ ev)
    /\ requests_of ev
       = ProductVariantsBulkCreate "gid://shopify/Product/3" "11.00"
           (Some ("Medium", "Size")) :: l
    /\ Forall (fun q' => sku_step q' = true) l
    /\ (Sleep 2 ∈ ev /\ exists l', l = GetVariant "v8" :: l').
Proof.
  exact (variant_creation_steps variant_creating_remote "gid://shopify/Product/3"
           row_medium (Some "Size") None (Txt "Medium") []
           (or_introl eq_refl) eq_refl).
Defined.

(** ** A row whose option value was created *)

(** X20. On the create path with an option name declared, a row that has
    a SKU and whose option value, trimmed, is not empty and equals the
    trimmed value of a created variant up to case, is queued: its price
    goes into the batch for a variant whose value equals the row's up to
    case, and its SKU is remembered for that variant.  The variants are
    taken to have identifiers that are not empty. *)
Theorem matched_option_value_is_queued :
  forall option_name evd product r c b v w,
    some_text option_name = true ->
    no_sku r = false ->
    row_find r "variant_option1_value" = Some c ->
    isna c = false ->
    Text.strip (str c) <> "" ->
    get_product evd = Some product ->
    Forall (fun v' => v_id v' <> "") (p_variants product) ->
    v ∈ p_variants product ->
    first_option_value v = Some w ->
    Text.lower w = Text.lower (Text.strip (str c)) ->
    exists v' w',
      v' ∈ p_variants product
      /\ first_option_value v' = Some w'
      /\ Text.lower w' = Text.lower (Text.strip (str c))
      /\ collect_row option_name evd (fst (index_variants evd))
           (snd (index_variants evd)) b r
         = Ok (queue (snd (index_variants evd)) (v_id v') r
                 (row_get r "variant_sku" (Txt "")) b).
Proof.
  intros option_name evd product r c b v w Hname Hsku Hc Hna Hne Hp Hids Hv Hw Hlow.
  set (value := Text.strip (str c)) in *.
  assert (exists id, match_by_option_value (fst (index_variants evd)) value = Some id
                     /\ (fst (index_variants evd) !! value = Some id
                         \/ fst (index_variants evd) !! Text.lower value = Some id))
    as (id & Hm & Hin).
  { unfold match_by_option_value, or_else, index_variants. rewrite Hp.
    destruct (index_variant_has (p_variants product) ∅ ∅ v w Hv Hw) as [id' Hid'].
    rewrite Hlow in Hid'.
    set (m := fst (fold_left index_variant (p_variants product) (∅, ∅))) in *.
    destruct (m !! value) as [id|] eqn:He.
    - destruct (some_text (Some id)); eauto.
    - simpl. eauto. }
  assert (exists v' w', v' ∈ p_variants product /\ first_option_value v' = Some w'
                        /\ Text.lower w' = Text.lower value /\ id = v_id v')
    as (v' & w' & Hv' & Hw' & Hlow' & ->).
  { unfold index_variants in Hin. rewrite Hp in Hin.
    destruct Hin as [Hin|Hin];
      apply index_variant_origin in Hin as [Hin|(v' & w' & Hv' & Hw' & Hk & ->)];
      try (rewrite lookup_empty in Hin; discriminate);
      exists v', w'; repeat split; try done.
    - destruct Hk as [->| ->]; [done|by rewrite lower_idemp].
    - destruct Hk as [Hk|Hk].
      + by rewrite <- Hk, lower_idemp.
      + apply (f_equal Text.lower) in Hk. by rewrite !lower_idemp in Hk. }
  exists v', w'. repeat split; try done.
  unfold collect_row. unfold no_sku in Hsku. rewrite Hsku, Hname.
  assert (row_get r "variant_option1_value" (Txt "") = c) as ->
      by (unfold row_get; by rewrite Hc).
  assert (row_item r "variant_option1_value" = Ok c) as ->
      by (unfold row_item; by rewrite Hc).
  rewrite Hna. cbn [negb andb]. cbv iota. fold value.
  assert (Text.nonempty value = true) as ->.
  { clear -Hne. subst value. by destruct (Text.strip (str c)). }
  rewrite Hm.
  assert (some_text (Some (v_id v')) = true) as ->; [|reflexivity].
  rewrite Forall_forall in Hids. specialize (Hids v' Hv').
  simpl. by destruct (v_id v').
Qed.

Lemma matched_option_value_is_queued_witness :
  exists v' w',
    v' ∈ p_variants small_product
    /\ first_option_value v' = Some w'
    /\ Text.lower w' = Text.lower (Text.strip (str (Txt "small")))
    /\ collect_row (Some "Size") small_variants (fst (index_variants small_variants))
         (snd (index_variants small_variants)) empty_batch row_small
       = Ok (queue (snd (index_variants small_variants)) (v_id v') row_small
               (row_get row_small "variant_sku" (Txt "")) empty_batch).
Proof.
  apply (matched_option_value_is_queued (Some "Size") small_variants small_product
           row_small (Txt "small") empty_batch small_variant "Small"
           eq_refl eq_refl eq_refl eq_refl);
    try reflexivity.
  - discriminate.
  - repeat constructor. discriminate.
  - left.
Defined.

(** ** The inventory index of the create path *)

Lemma index_inventory_keeps :
  forall l vm vim id,
    is_Some (vim !! id) -> is_Some (snd (fold_left index_variant l (vm, vim)) !! id).
Proof.
  induction l as [|v l IH]; intros vm vim id H; [exact H|].
  cbn [fold_left]. unfold index_variant at 2.
  apply IH. destruct (v_inventory_item v) as [inv|]; [|exact H].
  destruct (Text.nonempty inv); [|exact H].
  apply lookup_insert_is_Some'. auto.
Qed.

Lemma index_inventory_has :
  forall l vm vim v inv,
    v ∈ l -> v_inventory_item v = Some inv -> inv <> "" ->
    is_Some (snd (fold_left index_variant l (vm, vim)) !! v_id v).
Proof.
  induction l as [|v0 l IH]; intros vm vim v inv Hv Hinv Hne.
  - by apply elem_of_nil in Hv.
  - cbn [fold_left]. apply elem_of_cons in Hv as [<-|Hv].
    + unfold index_variant at 2. rewrite Hinv.
      destruct inv; [done|]. simpl. apply index_inventory_keeps.
      apply lookup_insert_is_Some'. auto.
    + destruct (index_variant (vm, vim) v0) as [vm' vim']. by apply (IH _ _ v inv).
Qed.

Lemma index_inventory_origin :
  forall l vm vim id inv,
    snd (fold_left index_variant l (vm, vim)) !! id = Some inv ->
    vim !! id = Some inv
    \/ exists v, v ∈ l /\ v_id v = id /\ v_inventory_item v = Some inv /\ inv <> "".
Proof.
  induction l as [|v l IH]; intros vm vim id inv H; [by left|].
  cbn [fold_left] in H. unfold index_variant at 2 in H.
  apply IH in H as [H|(v' & Hv' & ?)].
  - destruct (v_inventory_item v) as [inv'|] eqn:Hinv; [|by left].
    destruct (Text.nonempty inv') eqn:Hne; [|by left].
    destruct (decide (v_id v = id)) as [<-|Hid].
    + rewrite lookup_insert_eq in H. injection H as <-.
      right. exists v. repeat split; [left|done|]. by destruct inv'.
    + rewrite lookup_insert_ne in H by done. by left.
  - right. exists v'. split; [by right|done].
Qed.

(** X21. The inventory index the create path builds from the last answer
    of the poll holds exactly the records the answer shows: an entry is
    the non-empty record of a listed variant with that identifier, every
    listed variant with a non-empty record has an entry, and the index
    has an entry exactly when the poll's test for readiness holds of that
    answer.  So after a poll that gave up, no record is known and every
    SKU write has to ask for the record first. *)
Theorem inventory_index_matches_poll :
  forall evd,
    (forall id inv,
       snd (index_variants evd) !! id = Some inv ->
       inv <> ""
       /\ exists product v,
            get_product evd = Some product /\ v ∈ p_variants product
            /\ v_id v = id /\ v_inventory_item v = Some inv)
    /\ (forall product v inv,
          get_product evd = Some product -> v ∈ p_variants product ->
          v_inventory_item v = Some inv -> inv <> "" ->
          is_Some (snd (index_variants evd) !! v_id v))
    /\ (has_inventory_items evd = true
        <-> exists id, is_Some (snd (index_variants evd) !! id))
    /\ (has_inventory_items evd = false ->
        forall id, known_inventory (snd (index_variants evd)) id = None).
Proof.
  intros evd.
  assert (forall id inv,
             snd (index_variants evd) !! id = Some inv ->
             inv <> ""
             /\ exists product v,
                  get_product evd = Some product /\ v ∈ p_variants product
                  /\ v_id v = id /\ v_inventory_item v = Some inv) as Horigin.
  { intros id inv H. unfold index_variants in H.
    destruct (get_product evd) as [product|];
      [|simpl in H; by rewrite lookup_empty in H].
    apply index_inventory_origin in H as [H|(v & Hv & Hid & Hinv & Hne)].
    - by rewrite lookup_empty in H.
    - split; [exact Hne|]. by exists product, v. }
  assert (forall product v inv,
             get_product evd = Some product -> v ∈ p_variants product ->
             v_inventory_item v = Some inv -> inv <> "" ->
             is_Some (snd (index_variants evd) !! v_id v)) as Hhas.
  { intros product v inv Hp Hv Hinv Hne. unfold index_variants. rewrite Hp.
    by apply (index_inventory_has _ _ _ v inv). }
  assert (has_inventory_items evd = true
          <-> exists id, is_Some (snd (index_variants evd) !! id)) as Hiff.
  { unfold has_inventory_items. split.
    - destruct (get_product evd) as [product|] eqn:Hp; [|discriminate].
      intros H. apply existsb_exists in H as (v & Hv & Hs).
      destruct (v_inventory_item v) as [inv|] eqn:Hinv; [|discriminate].
      exists (v_id v). apply (Hhas product v inv eq_refl); try done.
      + by apply list_elem_of_In.
      + by destruct inv.
    - intros (id & inv & H). destruct (Horigin id inv H)
        as (Hne & product & v & Hp & Hv & _ & Hinv).
      rewrite Hp. apply existsb_exists. exists v. split; [by apply list_elem_of_In|].
      rewrite Hinv. by destruct inv. }
  split; [exact Horigin|]. split; [exact Hhas|]. split; [exact Hiff|].
  intros Hfalse id. unfold known_inventory.
  destruct (snd (index_variants evd) !! id) as [inv|] eqn:Hl; [|reflexivity].
  exfalso. assert (has_inventory_items evd = true) as Ht.
  { apply Hiff. exists id. by rewrite Hl. }
  congruence.
Qed.

(** ** A lookup that finds nothing *)



(** ** Sample runs *)

Example ensure_option_present_run :
  ensure_product_options_exist sized_remote "gid://shopify/Product/3"
    (Some "Size") ["Small"; "Large"] []
  = (Ok true, [Sent (GetProduct "gid://shopify/Product/3")]).
Proof. vm_compute. reflexivity. Qed.

Example ensure_option_absent_run :
  ensure_product_options_exist silent_remote "gid://shopify/Product/3"
    (Some "Size") ["Small"; "Large"; "Small"] []
  = (Ok false,
     [Sent (GetProduct "gid://shopify/Product/3");
      Sent (ProductOptionsCreate "gid://shopify/Product/3" "Size" ["Small"; "Large"])]).
Proof. vm_compute. reflexivity. Qed.

Example publish_run :
  publish_product_to_sales_channel channels_remote "gid://shopify/Product/3" []
  = (Ok tt,
     [Sent GetPublications;
      Sent (PublishablePublish "gid://shopify/Product/3"
              "gid://shopify/Publication/2")]).
Proof. vm_compute. reflexivity. Qed.

Example images_run :
  add_images_to_product silent_remote
    (fun p => String.eqb p "/local/b.png") "gid://shopify/Product/3"
    (Txt "https://x/a.jpg, /local/b.png, /missing/c.png") []
  = (Ok tt,
     [Sent (FileCreate "/local/b.png");
      Sent (ProductImages "gid://shopify/Product/3" ["https://x/a.jpg"])]).
Proof. vm_compute. reflexivity. Qed.

(** ** Writing a price and a SKU *)


(** X24. Updating a variant sends the price first.  When that update is
    not confirmed, or the row has no SKU, nothing else is sent: the SKU
    is written only after a confirmed price update.  Otherwise the SKU
    write for the row's SKU follows at once. *)
Theorem sku_follows_confirmed_price :
  forall remote variant_id r tr,
    let q := ProductVariantsBulkUpdate None [(variant_id, price_of r)] in
    let tr1 := tr ++ Sent q :: cooldown_of (remote tr q) in
    update_variant remote variant_id r tr
    = if confirmed (remote tr q) && has_sku r
      then (Ok tt, snd (update_variant_sku remote variant_id (sku_text r) tr1))
      else (Ok tt, tr1).
Proof.
  intros remote variant_id r tr q tr1.
  unfold update_variant, run_bind at 1. rewrite run_graphql_query_eq.
  fold q tr1. unfold confirmed, has_sku.
  assert (no_sku r = negb (truthy (row_get r "variant_sku" (Txt ""))
                           && negb (isna (row_get r "variant_sku" (Txt "")))))
    as Hno.
  { unfold no_sku.
    by destruct (truthy (row_get r "variant_sku" (Txt ""))),
         (isna (row_get r "variant_sku" (Txt ""))). }
  rewrite Hno, negb_involutive.
  destruct (get_productVariantsBulkUpdate (data_of (remote tr q))) as [res|];
    [|reflexivity].
  destruct (negb (is_nil (vr_product_variants res))); [|reflexivity].
  destruct (truthy _ && negb (isna _)); [|reflexivity].
  simpl. unfold run_bind. fold (sku_text r).
  destruct (update_variant_sku_events remote variant_id (sku_text r) tr1)
    as (ok & ev & l & -> & _). reflexivity.
Qed.
